(** * News-ingestion web service: the media extractor, the summarizer with
      its length retry, the per-candidate pipeline and the run loop of
      [src/both.js], embedded as executable Rocq definitions.

    JavaScript values are an inductive type, objects are finite maps from
    property names to values, and a thrown exception is an explicit
    outcome.  Strings are Rocq strings: sequences of code units below 256.
    Numbers are restricted to integers. *)

From Stdlib Require Import ZArith Lia Ascii String.
From stdpp Require Import gmap strings list pretty.
From Equations Require Import Equations.

Set Warnings "-register-all".
Local Open Scope string_scope.
Local Open Scope list_scope.

(** ** JavaScript values and the primitive operations the source uses *)

Module JS.

Inductive value :=
| VUndefined
| VNull
| VBool (b : bool)
| VNum (n : Z)
| VStr (s : string)
| VArr (l : list value)
| VObj (props : gmap string value).

(** The result of evaluating an expression: a value, or a thrown error
    carrying its message. *)
Inductive outcome (A : Type) :=
| Ok (a : A)
| Throw (msg : string).
Arguments Ok {A} a.
Arguments Throw {A} msg.

Definition obind {A B} (m : outcome A) (k : A -> outcome B) : outcome B :=
  match m with
  | Ok a => k a
  | Throw e => Throw e
  end.

Declare Scope js_scope.
Delimit Scope js_scope with js.
Notation "x <- m ;; k" := (obind m (fun x => k))
  (at level 100, m at next level, right associativity) : js_scope.
Local Open Scope js_scope.

(** ToBoolean. *)
Definition truthy (v : value) : bool :=
  match v with
  | VUndefined | VNull => false
  | VBool b => b
  | VNum n => negb (n =? 0)%Z
  | VStr s => negb (String.eqb s "")
  | VArr _ | VObj _ => true
  end.

(** Property read [v.p] or [v[p]] for the property names the source reads
    ([media:content], [media], [content], [$], [medium], [type], [url],
    [@_url], [media:thumbnail], [enclosure], [text], [objects], [choices],
    [message]): [undefined] and [null] throw, an object yields the
    property or [undefined], and no other kind of value has a property of
    one of these names.  [title], [link] and [pubDate] are read on the
    items of a parsed feed, which are objects. *)
Definition get (v : value) (p : string) : outcome value :=
  match v with
  | VUndefined => Throw "TypeError: Cannot read properties of undefined"
  | VNull => Throw "TypeError: Cannot read properties of null"
  | VObj props => Ok (default VUndefined (props !! p))
  | VBool _ | VNum _ | VStr _ | VArr _ => Ok VUndefined
  end.

(** Optional chaining [v?.p]. *)
Definition get_opt (v : value) (p : string) : outcome value :=
  match v with
  | VUndefined | VNull => Ok VUndefined
  | _ => get v p
  end.

(** Element read [arr[i]] on an array. *)
Definition index (arr : list value) (i : nat) : value :=
  default VUndefined (arr !! i).

(** Optional element read [v?.[i]]: an array element, the property named
    by the index on an object, the one-unit string at the index of a
    string. *)
Definition index_opt (v : value) (i : nat) : outcome value :=
  match v with
  | VUndefined | VNull => Ok VUndefined
  | VArr arr => Ok (index arr i)
  | VObj props => Ok (default VUndefined (props !! pretty i))
  | VStr s =>
      Ok (match String.get i s with
          | Some c => VStr (String c "")
          | None => VUndefined
          end)
  | VBool _ | VNum _ => Ok VUndefined
  end.

(** [a && b] and [a || b] keep the operand that decided. *)
Definition js_and (a : value) (b : outcome value) : outcome value :=
  if truthy a then b else Ok a.

Definition js_or (a : value) (b : outcome value) : outcome value :=
  if truthy a then Ok a else b.

(** [v === 'lit']. *)
Definition strict_eq_str (v : value) (lit : string) : bool :=
  match v with
  | VStr s => String.eqb s lit
  | _ => false
  end.

(** Method call [v.startsWith(p)]: only strings have the method. *)
Definition call_startsWith (v : value) (p : string) : outcome value :=
  match v with
  | VStr s => Ok (VBool (String.prefix p s))
  | VUndefined => Throw "TypeError: Cannot read properties of undefined"
  | VNull => Throw "TypeError: Cannot read properties of null"
  | _ => Throw "TypeError: startsWith is not a function"
  end.

(** [typeof v === 'object']. *)
Definition typeof_object (v : value) : bool :=
  match v with
  | VNull | VArr _ | VObj _ => true
  | _ => false
  end.

(** [arr.find(pred)]: the first element at which the callback's result is
    truthy, [undefined] when there is none; a throwing callback ends it. *)
Fixpoint find (pred : value -> outcome value) (arr : list value)
  : outcome value :=
  match arr with
  | [] => Ok VUndefined
  | x :: rest =>
      r <- pred x ;;
      if truthy r then Ok x else find pred rest
  end.

(** [if (c) t else e] with a condition that may throw. *)
Definition cond {A} (c : outcome value) (t e : outcome A) : outcome A :=
  r <- c ;; if truthy r then t else e.

End JS.

Import JS.
Local Open Scope js_scope.

(** ** Media extractor ([extractMediaUrl], lines 68-138) *)

(** The callback of lines 77-78 and 99-100:
    [media.$ && (media.$.medium === 'image' ||
                 (media.$.type && media.$.type.startsWith('image/')))]. *)
Definition isImageMedia (media : value) : outcome value :=
  d <- get media "$" ;;
  js_and d
    (d1 <- get media "$" ;;
     medium <- get d1 "medium" ;;
     if strict_eq_str medium "image" then Ok (VBool true)
     else
       d2 <- get media "$" ;;
       ty <- get d2 "type" ;;
       js_and ty
         (d3 <- get media "$" ;;
          ty' <- get d3 "type" ;;
          call_startsWith ty' "image/")).

(** The callback of lines 120-121:
    [e.$ && e.$.type && e.$.type.startsWith('image/')]. *)
Definition isImageEnclosure (e : value) : outcome value :=
  d <- get e "$" ;;
  js_and d
    (d1 <- get e "$" ;;
     ty <- get d1 "type" ;;
     js_and ty
       (d2 <- get e "$" ;;
        ty' <- get d2 "type" ;;
        call_startsWith ty' "image/")).

(** [v.$.url]. *)
Definition dollar_url (v : value) : outcome value :=
  d <- get v "$" ;; get d "url".

(** [v && v.$]. *)
Definition and_dollar (v : value) : outcome value :=
  js_and v (get v "$").

(** [v.url || v['@_url'] || '']. *)
Definition flattened_url (v : value) : outcome value :=
  u <- get v "url" ;;
  js_or u (u' <- get v "@_url" ;; js_or u' (Ok (VStr ""))).

(** Method 1, lines 72-93. *)
Definition method1 (item imageUrl : value) : outcome value :=
  cond (get item "media:content")
    (mediaContent <- get item "media:content" ;;
     match mediaContent with
     | VArr arr =>
         imageMedia <- find isImageMedia arr ;;
         cond (and_dollar imageMedia)
           (dollar_url imageMedia)
           (cond (and_dollar (index arr 0))
              (dollar_url (index arr 0))
              (Ok imageUrl))
     | _ =>
         cond (and_dollar mediaContent)
           (dollar_url mediaContent)
           (if typeof_object mediaContent
            then flattened_url mediaContent
            else Ok imageUrl)
     end)
    (Ok imageUrl).

(** Method 2, lines 96-105. *)
Definition method2 (item imageUrl : value) : outcome value :=
  cond (js_and (VBool (negb (truthy imageUrl)))
          (m <- get item "media" ;;
           js_and m (m' <- get item "media" ;; get m' "content")))
    (m <- get item "media" ;;
     mediaContent <- get m "content" ;;
     match mediaContent with
     | VArr arr =>
         found <- find isImageMedia arr ;;
         media <- js_or found (Ok (index arr 0)) ;;
         cond (and_dollar media) (dollar_url media) (Ok (VStr ""))
     | _ =>
         cond (and_dollar mediaContent)
           (dollar_url mediaContent)
           (Ok imageUrl)
     end)
    (Ok imageUrl).

(** Method 3, lines 108-115. *)
Definition method3 (item imageUrl : value) : outcome value :=
  cond (js_and (VBool (negb (truthy imageUrl))) (get item "media:thumbnail"))
    (thumbnail <- get item "media:thumbnail" ;;
     cond (and_dollar thumbnail)
       (dollar_url thumbnail)
       (if typeof_object thumbnail
        then flattened_url thumbnail
        else Ok imageUrl))
    (Ok imageUrl).

(** Method 4, lines 118-135. *)
Definition method4 (item imageUrl : value) : outcome value :=
  cond (js_and (VBool (negb (truthy imageUrl))) (get item "enclosure"))
    (enclosure <- get item "enclosure" ;;
     match enclosure with
     | VArr arr =>
         imageEnclosure <- find isImageEnclosure arr ;;
         cond (and_dollar imageEnclosure)
           (dollar_url imageEnclosure)
           (Ok imageUrl)
     | _ =>
         cond (isImageEnclosure enclosure)
           (dollar_url enclosure)
           (if typeof_object enclosure
            then
              cond (ty <- get enclosure "type" ;;
                    js_and ty (call_startsWith ty "image/"))
                (u <- get enclosure "url" ;; js_or u (Ok (VStr "")))
                (Ok imageUrl)
            else Ok imageUrl)
     end)
    (Ok imageUrl).

Definition extractMediaUrl (item : value) : outcome value :=
  imageUrl <- method1 item (VStr "") ;;
  imageUrl <- method2 item imageUrl ;;
  imageUrl <- method3 item imageUrl ;;
  method4 item imageUrl.

(** ** Strings: [trim] and [split(/\s+/)] *)

(** White space and line terminators among the code units below 256:
    TAB, LF, VT, FF, CR, SPACE and NBSP. *)
Definition is_space (c : ascii) : bool :=
  let n := nat_of_ascii c in
  (Nat.leb 9 n && Nat.leb n 13) || Nat.eqb n 32 || Nat.eqb n 160.

Fixpoint trim_start (s : string) : string :=
  match s with
  | EmptyString => EmptyString
  | String c s' => if is_space c then trim_start s' else s
  end.

Fixpoint trim_end (s : string) : string :=
  match s with
  | EmptyString => EmptyString
  | String c s' =>
      match trim_end s' with
      | EmptyString => if is_space c then EmptyString else String c EmptyString
      | t => String c t
      end
  end.

Definition trim (s : string) : string := trim_end (trim_start s).

(** [s.split(/\s+/)]: the pieces between maximal runs of white space;
    [in_sep] tells that the previous unit belonged to a run. *)
Fixpoint split_go (in_sep : bool) (s : string) : list string :=
  match s with
  | EmptyString => [""]
  | String c s' =>
      if is_space c then
        if in_sep then split_go true s' else "" :: split_go true s'
      else
        match split_go false s' with
        | p :: ps => String c p :: ps
        | [] => [String c ""]
        end
  end.

Definition split_ws (s : string) : list string := split_go false s.

(** Method call [v.split(/\s+/)]. *)
Definition call_split (v : value) : outcome (list string) :=
  match v with
  | VStr s => Ok (split_ws s)
  | VUndefined => Throw "TypeError: Cannot read properties of undefined"
  | VNull => Throw "TypeError: Cannot read properties of null"
  | _ => Throw "TypeError: split is not a function"
  end.

(** Optional method call [v?.trim()]. *)
Definition call_trim_opt (v : value) : outcome value :=
  match v with
  | VUndefined | VNull => Ok VUndefined
  | VStr s => Ok (VStr (trim s))
  | _ => Throw "TypeError: trim is not a function"
  end.

(** ** The world a run acts on *)

(** A candidate as pushed at lines 284-291. *)
Record Candidate := {
  title : value;
  link : value;
  source : value;
  image : value;
  categoryId : value;
  pubDate : value
}.

(** The two prompt templates of lines 147-156 and 159-167, each closed by
    the article text. *)
Inductive Prompt :=
| Primary (articleText : value)
| Escalated (articleText : value).

(** Table [rss_feeds]. *)
Record FeedRow := {
  rss_url : value;
  category_id : value;
  status : Z
}.

(** Table [blogs], columns in the order of the INSERT of lines 234-248. *)
Record BlogRow := {
  blog_id : Z;
  blog_type : value;
  blog_title : value;
  blog_description : value;
  blog_source_img : value;
  blog_source_name : value;
  blog_source_link : value;
  blog_created_by : value;
  blog_status : value;
  blog_pub_date : value
}.

(** Table [blog_categories]. *)
Record CategoryRow := {
  bc_blog_id : value;
  bc_category_id : value;
  bc_type : value
}.

(** What [parser.parseURL] resolves to, as far as the run reads it. *)
Record ParsedFeed := {
  feed_title : value;
  items : list value
}.

(** The calendar fields [getFullYear], [getMonth], [getDate] of a date in
    the local time zone. *)
Record Day := {
  fullYear : Z;
  month : Z;
  date : Z
}.

(** The lines the service writes to the console. *)
Inductive LogLine :=
| LogSummaryTooShort (wordCount : nat)                    (* line 187 *)
| LogSummarizationError (msg : string)                    (* line 193 *)
| LogSkipProcessed (link : value)                         (* line 202 *)
| LogSkipNotToday (link : value)                          (* line 208 *)
| LogProcessing (link : value)                            (* line 212 *)
| LogNoArticle (link : value)                             (* line 221 *)
| LogSummaryRejected (link : value)                       (* line 229 *)
| LogInserted (title insertedBlogId categoryId : value)   (* line 261 *)
| LogProcessingError (msg : string)                       (* line 265 *)
| LogFeedError (rss_url : value) (msg : string)           (* line 294 *)
| LogFound (n : nat)                                      (* line 298 *)
| LogProcessingUpTo (n : nat)                             (* line 302 *)
| LogCompleted (n : nat).                                 (* line 315 *)

(** What a run does to the outside world, in program order: the calls to
    its collaborators, the timer and the console lines. *)
Inductive event :=
| EvLog (line : LogLine)
| EvCreatePool
| EvSelectFeeds
| EvParseURL (url : value)
| EvSelectBlog (url : value)
| EvDiffbot (url : value)
| EvOpenRouter (prompt : Prompt)
| EvInsertBlog (row : BlogRow)
| EvInsertCategory (row : CategoryRow)
| EvDelay (ms : Z)
| EvPoolEnd.

Record World := {
  rss_feeds : list FeedRow;
  blogs : list BlogRow;
  blog_categories : list CategoryRow;
  auto_increment : Z;
  trace : list event
}.

(** The behaviour of the collaborators that are not part of the source.
    An operation is identified by the number of events recorded before
    it in the run.  [fault k = Some msg] makes operation [k] reject with
    an [Error] of that message (network or authentication failure, lost
    connection, refused statement); otherwise the operation answers as
    the other fields say. *)
Record Env := {
  fault : nat -> option string;
  parseURL_result : nat -> value -> ParsedFeed;
  diffbot_data : nat -> value -> value;
  openrouter_data : nat -> Prompt -> value;
  date_of : value -> option Day;
  today : nat -> Day;
  now_iso : nat -> string
}.

(** ** Effects: state and exceptions *)

Definition M (A : Type) : Type := World -> outcome A * World.

Definition ret {A} (a : A) : M A := fun w => (Ok a, w).

Definition bind {A B} (m : M A) (k : A -> M B) : M B :=
  fun w =>
    match m w with
    | (Ok a, w') => k a w'
    | (Throw e, w') => (Throw e, w')
    end.

Definition lift {A} (o : outcome A) : M A := fun w => (o, w).

(** [try { m } catch (error) { h error }]. *)
Definition try_catch {A} (m : M A) (h : string -> M A) : M A :=
  fun w =>
    match m w with
    | (Ok a, w') => (Ok a, w')
    | (Throw e, w') => h e w'
    end.

(** [try { m } finally { f }]: the finalizer runs on both exits, and its
    own exception replaces the outcome of the block. *)
Definition try_finally {A} (m : M A) (f : M unit) : M A :=
  fun w =>
    match m w with
    | (r, w') =>
        match f w' with
        | (Ok _, w'') => (r, w'')
        | (Throw e, w'') => (Throw e, w'')
        end
    end.

Declare Scope run_scope.
Delimit Scope run_scope with run.
Notation "x <- m ;; k" := (bind m (fun x => k))
  (at level 100, m at next level, right associativity) : run_scope.
Notation "m ;;; k" := (bind m (fun _ => k))
  (at level 100, right associativity) : run_scope.

Definition log (e : event) (w : World) : World :=
  {| rss_feeds := rss_feeds w;
     blogs := blogs w;
     blog_categories := blog_categories w;
     auto_increment := auto_increment w;
     trace := trace w ++ [e] |}.

(** A row enters [blogs] and takes the next AUTO_INCREMENT id. *)
Definition add_blog (row : BlogRow) (w : World) : World :=
  {| rss_feeds := rss_feeds w;
     blogs := blogs w ++ [row];
     blog_categories := blog_categories w;
     auto_increment := (auto_increment w + 1)%Z;
     trace := trace w |}.

Definition add_category (row : CategoryRow) (w : World) : World :=
  {| rss_feeds := rss_feeds w;
     blogs := blogs w;
     blog_categories := blog_categories w ++ [row];
     auto_increment := auto_increment w;
     trace := trace w |}.

Definition is_null (v : value) : bool :=
  match v with
  | VNull => true
  | _ => false
  end.

(** [WHERE column = ?] on a string column under a binary collation; an
    SQL NULL on either side matches nothing. *)
Definition sql_eq (column param : value) : bool :=
  match column, param with
  | VStr a, VStr b => String.eqb a b
  | VNum a, VNum b => (a =? b)%Z
  | _, _ => false
  end.

Definition same_day (a b : Day) : bool :=
  (date a =? date b)%Z && (month a =? month b)%Z
  && (fullYear a =? fullYear b)%Z.

Section Service.

Variable env : Env.

Local Open Scope run_scope.

(** An awaited call to a collaborator: it is recorded, then it rejects or
    it answers. *)
Definition external {A} (e : event) (answer : nat -> World -> A * World)
  : M A :=
  fun w =>
    let k := length (trace w) in
    match fault env k with
    | Some msg => (Throw msg, log e w)
    | None => let '(a, w') := answer k (log e w) in (Ok a, w')
    end.

(** [createDbConnection], lines 28-38. *)
Definition createDbConnection : M unit :=
  external EvCreatePool (fun _ w => (tt, w)).

(** [fetchRSSFeeds], lines 41-44. *)
Definition fetchRSSFeeds : M (list FeedRow) :=
  external EvSelectFeeds
    (fun _ w => (filter (fun r => status r = 1%Z) (rss_feeds w), w)).

(** [isNewsProcessed], lines 47-50. *)
Definition isNewsProcessed (url : value) : M bool :=
  external (EvSelectBlog url)
    (fun _ w =>
       let rows := filter (fun r => sql_eq (blog_source_link r) url = true)
                     (blogs w) in
       (Nat.ltb 0 (length rows), w)).

(** [isNewsFromToday], lines 53-62; the clock is read when it is called. *)
Definition isNewsFromToday (pubDate : value) : M bool :=
  fun w =>
    if negb (truthy pubDate) then (Ok false, w)
    else
      match date_of env pubDate with
      | None => (Ok false, w)
      | Some newsDate => (Ok (same_day newsDate (today env (length (trace w)))), w)
      end.

(** [db.execute] of the INSERT of lines 234-248; resolves to [insertId]. *)
Definition insertBlog (params : Z -> BlogRow) : M value :=
  fun w =>
    external (EvInsertBlog (params (auto_increment w)))
      (fun _ w' => (VNum (auto_increment w),
                    add_blog (params (auto_increment w)) w')) w.

(** [db.execute] of the INSERT of lines 255-258. *)
Definition insertCategory (row : CategoryRow) : M unit :=
  external (EvInsertCategory row) (fun _ w => (tt, add_category row w)).

(** [axios.get] of lines 215-217; resolves to [response.data]. *)
Definition diffbot (url : value) : M value :=
  external (EvDiffbot url) (fun k w => (diffbot_data env k url, w)).

(** [axios.post] of lines 170-180; resolves to [response.data]. *)
Definition openrouter (prompt : Prompt) : M value :=
  external (EvOpenRouter prompt) (fun k w => (openrouter_data env k prompt, w)).

(** [parser.parseURL], line 279. *)
Definition parseURL (url : value) : M ParsedFeed :=
  external (EvParseURL url) (fun k w => (parseURL_result env k url, w)).

(** The timer of line 310; it never rejects. *)
Definition delay (ms : Z) : M unit := fun w => (Ok tt, log (EvDelay ms) w).

(** [console.log] and [console.error]. *)
Definition say (line : LogLine) : M unit :=
  fun w => (Ok tt, log (EvLog line) w).

(** [db.end()], line 319. *)
Definition poolEnd : M unit := external EvPoolEnd (fun _ w => (tt, w)).

(** ** Summarizer ([summarizeContent], lines 141-196) *)

(** Line 182: [data.choices?.[0]?.message?.content?.trim()]. *)
Definition message_content (data : value) : outcome value :=
  (choices <- get data "choices" ;;
   first <- index_opt choices 0 ;;
   message <- get_opt first "message" ;;
   get_opt message "content")%js.

Definition summary_of (data : value) : outcome value :=
  (content <- message_content data ;; call_trim_opt content)%js.

(** Line 183: [summary ? summary.split(/\s+/).length : 0]. *)
Definition wordCount_of (summary : value) : outcome nat :=
  (if truthy summary
   then parts <- call_split summary ;; Ok (length parts)
   else Ok 0)%js.

Definition prompt_for (articleText : value) (retryCount : nat) : Prompt :=
  if Nat.eqb retryCount 0 then Primary articleText else Escalated articleText.

Equations? summarizeContent (articleText : value) (retryCount : nat) : M value
  by wf (4 - retryCount) lt :=
summarizeContent articleText retryCount :=
  try_catch
    (data <- openrouter (prompt_for articleText retryCount) ;;
     summary <- lift (summary_of data) ;;
     wordCount <- lift (wordCount_of summary) ;;
     if truthy summary && Nat.ltb wordCount 50 then
       match lt_dec retryCount 4 with
       | left _ =>
           say (LogSummaryTooShort wordCount) ;;;
           summarizeContent articleText (retryCount + 1)
       | right _ => ret summary
       end
     else ret summary)
    (fun msg => say (LogSummarizationError msg) ;;; ret VNull).
Proof. lia. Qed.

(** ** Per-candidate pipeline ([processNews], lines 199-268) *)

Definition blogRow (newsItem : Candidate) (summary : value) (id : Z)
  : BlogRow :=
  {| blog_id := id;
     blog_type := VStr "post";
     blog_title := title newsItem;
     blog_description := summary;
     blog_source_img := image newsItem;
     blog_source_name := source newsItem;
     blog_source_link := link newsItem;
     blog_created_by := VNum 1;
     blog_status := VNum 1;
     blog_pub_date := pubDate newsItem |}.

Definition processNews (newsItem : Candidate) : M value :=
  try_catch
    (processed <- isNewsProcessed (link newsItem) ;;
     if processed then
       say (LogSkipProcessed (link newsItem)) ;;; ret VNull
     else
       fresh <- isNewsFromToday (pubDate newsItem) ;;
       if negb fresh then
         say (LogSkipNotToday (link newsItem)) ;;; ret VNull
       else
         say (LogProcessing (link newsItem)) ;;;
         data <- diffbot (link newsItem) ;;
         article <- lift (objects <- get data "objects" ;;
                          index_opt objects 0)%js ;;
         noText <- lift (if truthy article
                         then text <- get article "text" ;;
                              Ok (negb (truthy text))
                         else Ok true)%js ;;
         if noText then
           say (LogNoArticle (link newsItem)) ;;; ret VNull
         else
           text <- lift (get article "text") ;;
           summary <- summarizeContent text 0 ;;
           short <- lift (if truthy summary
                          then parts <- call_split summary ;;
                               Ok (Nat.ltb (length parts) 50)
                          else Ok true)%js ;;
           if short then
             say (LogSummaryRejected (link newsItem)) ;;; ret VNull
           else
             insertedBlogId <- insertBlog (blogRow newsItem summary) ;;
             (if truthy insertedBlogId && truthy (categoryId newsItem)
              then insertCategory
                     {| bc_blog_id := insertedBlogId;
                        bc_category_id := categoryId newsItem;
                        bc_type := VStr "category" |}
              else ret tt) ;;;
             say (LogInserted (title newsItem) insertedBlogId
                    (categoryId newsItem)) ;;;
             ret insertedBlogId)
    (fun msg => say (LogProcessingError msg) ;;; ret VNull).

(** ** The run ([fetchAndProcessNews], lines 271-321) *)

(** The [forEach] of lines 280-292 over the items not yet visited.  The
    array [newsLinks] is updated in place, so the candidates pushed before
    an item throws stay in it. *)
Fixpoint pushItems (k : nat) (feed : FeedRow) (parsedFeed : ParsedFeed)
    (rest : list value) (newsLinks : list Candidate)
  : outcome unit * list Candidate :=
  match rest with
  | [] => (Ok tt, newsLinks)
  | item :: rest' =>
      match (imageUrl <- extractMediaUrl item ;;
             itemTitle <- get item "title" ;;
             itemLink <- get item "link" ;;
             itemPubDate <- get item "pubDate" ;;
             published <- js_or itemPubDate (Ok (VStr (now_iso env k))) ;;
             Ok {| title := itemTitle;
                   link := itemLink;
                   source := feed_title parsedFeed;
                   image := imageUrl;
                   categoryId := category_id feed;
                   pubDate := published |})%js with
      | Ok candidate =>
          pushItems k feed parsedFeed rest' (newsLinks ++ [candidate])
      | Throw e => (Throw e, newsLinks)
      end
  end.

(** The loop of lines 277-296 over the feeds not yet visited; the [catch]
    of line 293 reports what [parseURL] or the [forEach] throws and the
    loop goes on. *)
Fixpoint aggregate (rssFeeds : list FeedRow) (newsLinks : list Candidate)
  : M (list Candidate) :=
  match rssFeeds with
  | [] => ret newsLinks
  | feed :: rest =>
      fun w =>
        match parseURL (rss_url feed) w with
        | (Ok parsedFeed, w') =>
            match pushItems (length (trace w')) feed parsedFeed
                    (items parsedFeed) newsLinks with
            | (Ok _, newsLinks') => aggregate rest newsLinks' w'
            | (Throw msg, newsLinks') =>
                (say (LogFeedError (rss_url feed) msg) ;;;
                 aggregate rest newsLinks') w'
            end
        | (Throw msg, w') =>
            (say (LogFeedError (rss_url feed) msg) ;;;
             aggregate rest newsLinks) w'
        end
  end.

(** Line 301. *)
Definition itemsToProcess (newsLinks : list Candidate) : nat :=
  Nat.min 3 (length newsLinks).

(** The loop of lines 304-313 from index [i] on: [rest] is
    [newsLinks.slice(i)]. *)
Fixpoint walk (toProcess : nat) (rest : list Candidate) (processedCount : nat)
  : M nat :=
  match rest with
  | [] => ret processedCount
  | newsItem :: rest' =>
      if Nat.ltb processedCount toProcess then
        result <- processNews newsItem ;;
        if negb (is_null result) then
          let processedCount := S processedCount in
          (if Nat.ltb processedCount toProcess then delay 12000 else ret tt) ;;;
          walk toProcess rest' processedCount
        else walk toProcess rest' processedCount
      else ret processedCount
  end.

Definition fetchAndProcessNews : M nat :=
  createDbConnection ;;;
  try_finally
    (rssFeeds <- fetchRSSFeeds ;;
     newsLinks <- aggregate rssFeeds [] ;;
     say (LogFound (length newsLinks)) ;;;
     say (LogProcessingUpTo (itemsToProcess newsLinks)) ;;;
     processedCount <- walk (itemsToProcess newsLinks) newsLinks 0 ;;
     say (LogCompleted processedCount) ;;;
     ret processedCount)
    poolEnd.

End Service.

(** ** Observations on a run *)

(** The prompts sent to the summarization service, in order. *)
Definition prompts (t : list event) : list Prompt :=
  omap (fun e => match e with EvOpenRouter p => Some p | _ => None end) t.

(** The links looked up in [blogs]: one per candidate attempted. *)
Definition attempted (t : list event) : list value :=
  omap (fun e => match e with EvSelectBlog url => Some url | _ => None end) t.

Definition is_inserted (e : event) : bool :=
  match e with
  | EvLog (LogInserted _ _ _) => true
  | _ => false
  end.

Definition is_delay (e : event) : bool :=
  match e with
  | EvDelay _ => true
  | _ => false
  end.

(** The calls to the two paid services. *)
Definition is_paid_call (e : event) : bool :=
  match e with
  | EvDiffbot _ | EvOpenRouter _ => true
  | _ => false
  end.

(** The number of candidates reported as inserted. *)
Definition succeeded (t : list event) : nat :=
  length (List.filter is_inserted t).

Definition delays (t : list event) : nat :=
  length (List.filter is_delay t).

(** Every look-up in [blogs], the first step of an attempt, comes while
    fewer than [cap] insertions have been reported; [count] of them were
    reported before [t]. *)
Fixpoint starts_below (cap count : nat) (t : list event) : bool :=
  match t with
  | [] => true
  | EvSelectBlog _ :: t' => Nat.ltb count cap && starts_below cap count t'
  | e :: t' => starts_below cap (if is_inserted e then S count else count) t'
  end.

(** Every delay lasts 12 seconds and comes right after the report of an
    insertion; [after_insert] tells whether [t] follows such a report. *)
Fixpoint delays_after_insert (after_insert : bool) (t : list event) : bool :=
  match t with
  | [] => true
  | EvDelay ms :: t' =>
      after_insert && (ms =? 12000)%Z && delays_after_insert false t'
  | e :: t' => delays_after_insert (is_inserted e) t'
  end.

Definition same_tables (w w' : World) : Prop :=
  rss_feeds w' = rss_feeds w /\ blogs w' = blogs w
  /\ blog_categories w' = blog_categories w
  /\ auto_increment w' = auto_increment w.

(** The events of an attempt between the look-up in [blogs] and the
    persistence stage. *)
Definition is_front_event (e : event) : bool :=
  match e with
  | EvDiffbot _ | EvOpenRouter _ => true
  | EvLog (LogProcessing _) => true
  | EvLog (LogSummaryTooShort _) => true
  | EvLog (LogSummarizationError _) => true
  | _ => false
  end.

(** The lines that report a skipped candidate. *)
Definition is_skip_line (line : LogLine) : bool :=
  match line with
  | LogSkipProcessed _ | LogSkipNotToday _ | LogNoArticle _
  | LogSummaryRejected _ | LogProcessingError _ => true
  | _ => false
  end.

Definition categoryRow (newsItem : Candidate) (insertedBlogId : value)
  : CategoryRow :=
  {| bc_blog_id := insertedBlogId;
     bc_category_id := categoryId newsItem;
     bc_type := VStr "category" |}.

(** The outcome of lines 234-262 for an accepted [summary], read off the
    faults of the two INSERT statements. *)
Definition persistence (env : Env) (newsItem : Candidate) (summary : value)
    (w : World) : outcome value * World :=
  let row := blogRow newsItem summary (auto_increment w) in
  let insertedBlogId := VNum (auto_increment w) in
  let k := length (trace w) in
  match fault env k with
  | Some msg =>
      (Ok VNull, log (EvLog (LogProcessingError msg)) (log (EvInsertBlog row) w))
  | None =>
      let w1 := add_blog row (log (EvInsertBlog row) w) in
      let inserted := EvLog (LogInserted (title newsItem) insertedBlogId
                               (categoryId newsItem)) in
      if truthy insertedBlogId && truthy (categoryId newsItem) then
        let link := categoryRow newsItem insertedBlogId in
        match fault env (S k) with
        | Some msg =>
            (Ok VNull,
             log (EvLog (LogProcessingError msg)) (log (EvInsertCategory link) w1))
        | None =>
            (Ok insertedBlogId,
             log inserted (add_category link (log (EvInsertCategory link) w1)))
        end
      else (Ok insertedBlogId, log inserted w1)
  end.

(** The two ways an attempt started in [w] can end in [res]: after the
    look-up and some front events it is skipped with one console line, or
    it reaches the persistence stage with an accepted summary. *)
Definition attempt_shape (env : Env) (newsItem : Candidate) (w : World)
    (res : outcome value * World) : Prop :=
  exists (t0 : list event) (w1 : World),
    trace w1 = trace w ++ EvSelectBlog (link newsItem) :: t0
    /\ Forall (fun e => is_front_event e = true) t0
    /\ same_tables w w1
    /\ ((exists line,
           is_skip_line line = true /\ res = (Ok VNull, log (EvLog line) w1))
        \/ (exists summary, res = persistence env newsItem summary w1)).

(** What the summarization call issued as event [k] with prompt [p] gives
    as summary (line 182), or the error it raises. *)
Definition reply (env : Env) (k : nat) (p : Prompt) : outcome value :=
  match fault env k with
  | Some msg => Throw msg
  | None => summary_of (openrouter_data env k p)
  end.

(** The filter of lines 201-210 on one candidate, the clock being read at
    event [k]: no row of [blogs] has its link, and it was published
    today. *)
Definition survives (env : Env) (w : World) (k : nat) (c : Candidate) : bool :=
  negb (Nat.ltb 0 (length (filter
          (fun r => sql_eq (blog_source_link r) (link c) = true) (blogs w))))
  && truthy (pubDate c)
  && match date_of env (pubDate c) with
     | Some newsDate => same_day newsDate (today env k)
     | None => false
     end.

(** The message content is missing, or empty once trimmed. *)
Definition no_usable_content (content : value) : Prop :=
  content = VUndefined \/ content = VNull
  \/ exists s, content = VStr s /\ trim s = "".

(** A nonempty text of fewer than 50 words. *)
Definition tooShort (summary : value) : bool :=
  match summary with
  | VStr s => negb (String.eqb s "") && Nat.ltb (length (split_ws s)) 50
  | _ => false
  end.

(** ** The summarization service as its caller sees it *)





(** ** Concrete feed items *)

(** A media node as the XML parser builds it: the attributes under [$]. *)
Definition attributes (attrs : list (string * string)) : gmap string value :=
  list_to_map (prod_map id VStr <$> attrs).

Definition node (attrs : list (string * string)) : value :=
  VObj {[ "$" := VObj (attributes attrs) ]}.

Definition svg_attrs : list (string * string) :=
  [("type", "image/svg+xml"); ("url", "https://e.org/a.svg")].

Definition jpeg_attrs : list (string * string) :=
  [("type", "image/jpeg"); ("url", "https://e.org/b.jpg")].

Definition item_svg_first : value :=
  VObj {[ "media:content" :=
    VArr [node svg_attrs; node jpeg_attrs] ]}.

(** [<media:content medium="image"/>]: attributes, none of them [url]. *)
Definition item_no_url : value :=
  VObj {[ "media:content" := node [("medium", "image")] ]}.

Definition item_null_entry : value :=
  VObj {[ "media:content" := VArr [VNull] ]}.

(** ** Concrete worlds and collaborators *)

(** [n] one-letter words separated by single spaces. *)
Definition words (n : nat) : string := String.concat " " (repeat "w" n).

(** A chat-completion body whose first choice carries [content]. *)
Definition chat (content : value) : value :=
  VObj {[ "choices" :=
    VArr [VObj {[ "message" := VObj {[ "content" := content ]} ]}] ]}.

(** An extraction body whose first object carries [text]. *)
Definition article (text : string) : value :=
  VObj {[ "objects" := VArr [VObj {[ "text" := VStr text ]}] ]}.

Definition new_year : Day := {| fullYear := 2025; month := 0; date := 1 |}.

(** No collaborator fails; every article is extracted; the summarization
    service answers with [content k] at event [k]. *)
Definition calm (content : nat -> value) : Env :=
  {| fault := fun _ => None;
     parseURL_result := fun _ _ => {| feed_title := VStr "Feed"; items := [] |};
     diffbot_data := fun _ _ => article "Full text of the article.";
     openrouter_data := fun k _ => chat (content k);
     date_of := fun _ => Some new_year;
     today := fun _ => new_year;
     now_iso := fun _ => "2025-01-01T00:00:00.000Z" |}.

Definition with_fault (f : nat -> option string) (e : Env) : Env :=
  {| fault := f;
     parseURL_result := parseURL_result e;
     diffbot_data := diffbot_data e;
     openrouter_data := openrouter_data e;
     date_of := date_of e;
     today := today e;
     now_iso := now_iso e |}.

(** Only event [k] rejects. *)
Definition failing_at (k : nat) (msg : string) : nat -> option string :=
  fun j => if Nat.eqb j k then Some msg else None.

Definition sixty_words : Env := calm (fun _ => VStr (words 60)).

(** A parsed feed item with a title, a link and a publication date. *)
Definition feed_item (l : string) : value :=
  VObj {[ "title" := VStr "Title"; "link" := VStr l;
          "pubDate" := VStr "2025-01-01T08:00:00.000Z" ]}.

(** Every feed parses to the items [its]. *)
Definition with_items (its : list value) (e : Env) : Env :=
  {| fault := fault e;
     parseURL_result :=
       fun _ _ => {| feed_title := VStr "Feed"; items := its |};
     diffbot_data := diffbot_data e;
     openrouter_data := openrouter_data e;
     date_of := date_of e;
     today := today e;
     now_iso := now_iso e |}.

Definition empty_world : World :=
  {| rss_feeds := []; blogs := []; blog_categories := [];
     auto_increment := 1; trace := [] |}.

(** One active feed; [posts] are the rows of [blogs]. *)
Definition one_feed (posts : list BlogRow) : World :=
  {| rss_feeds := [{| rss_url := VStr "https://e.org/rss";
                      category_id := VNum 7; status := 1 |}];
     blogs := posts; blog_categories := [];
     auto_increment := 10; trace := [] |}.

(** The feed lists two fresh items, [a] and [b]. *)
Definition two_items : Env :=
  with_items [feed_item "https://e.org/a"; feed_item "https://e.org/b"]
    sixty_words.

(** The feed lists ten fresh items. *)
Definition ten_items : Env :=
  with_items (map (fun n => feed_item (pretty n)) (seq 1 10)) sixty_words.

Definition candidate (l : string) : Candidate :=
  {| title := VStr "Title"; link := VStr l; source := VStr "Feed";
     image := VStr ""; categoryId := VNum 7;
     pubDate := VStr "2025-01-01T08:00:00.000Z" |}.

(** The row that an earlier run stored for the candidate of link [l]. *)
Definition persisted_row (l : string) : BlogRow :=
  blogRow (candidate l) (VStr (words 60)) 1.

Definition world_with_post (l : string) : World :=
  {| rss_feeds := []; blogs := [persisted_row l]; blog_categories := [];
     auto_increment := 2; trace := [] |}.

Definition two_candidates : list Candidate :=
  [candidate "https://e.org/a"; candidate "https://e.org/b"].

(** Item [b] was stored by an earlier run. *)
Definition b_already_stored : World := one_feed [persisted_row "https://e.org/b"].

(** ** HTTP handlers (lines 324-356) *)

(** [a === b] where one side is a primitive: arrays and objects are equal
    to themselves only, and a primitive is never one of them. *)
Definition strict_eq (a b : value) : bool :=
  match a, b with
  | VUndefined, VUndefined => true
  | VNull, VNull => true
  | VBool x, VBool y => Bool.eqb x y
  | VNum x, VNum y => (x =? y)%Z
  | VStr x, VStr y => String.eqb x y
  | _, _ => false
  end.

(** [process.env.NAME]: the string, or [undefined] when the variable is
    not set. *)
Definition env_var (setting : option string) : value :=
  match setting with
  | Some s => VStr s
  | None => VUndefined
  end.

Record Response := {
  statusCode : Z;
  body : value
}.

(** What a handler leaves behind besides the effects of the run: whether
    it announced the run on the console (lines 331 and 349), the response
    it sent, and the error it reported on the console (line 339). *)
Record Served := {
  announced : bool;
  response : Response;
  reported : option string
}.

(** [GET /api/process-news], lines 324-345; [key] is [req.query.key] and
    [secret] the setting of [CRON_SECRET_KEY]. *)
Definition processNewsEndpoint (env : Env) (secret : option string)
    (key : value) (w : World) : Served * World :=
  if negb (strict_eq key (env_var secret)) then
    ({| announced := false;
        response := {| statusCode := 401;
                       body := VObj {[ "error" := VStr "Unauthorized" ]} |};
        reported := None |}, w)
  else
    match fetchAndProcessNews env w with
    | (Ok processedCount, w') =>
        ({| announced := true;
            response :=
              {| statusCode := 200;
                 body := VObj {[ "success" := VBool true;
                                 "message" :=
                                   VStr ("Successfully processed "
                                         +:+ pretty processedCount
                                         +:+ " news items.") ]} |};
            reported := None |}, w')
    | (Throw msg, w') =>
        ({| announced := true;
            response :=
              {| statusCode := 500;
                 body := VObj {[ "success" := VBool false;
                                 "error" := VStr msg ]} |};
            reported := Some msg |}, w')
    end.

(** [GET /test-news-processing], lines 348-356. *)
Definition testEndpoint (env : Env) (w : World) : Served * World :=
  match fetchAndProcessNews env w with
  | (Ok processedCount, w') =>
      ({| announced := true;
          response :=
            {| statusCode := 200;
               body := VStr ("News processing completed. Processed "
                             +:+ pretty processedCount
                             +:+ " items. Check console for output.") |};
          reported := None |}, w')
  | (Throw msg, w') =>
      ({| announced := true;
          response := {| statusCode := 500; body := VStr ("Error: " +:+ msg) |};
          reported := None |}, w')
  end.

(** ** Feed items whose collections and types are as an XML parser
       builds them *)

(** The [type] of [v] is a string, or missing. *)
Definition type_is_text (v : value) : bool :=
  match get v "type" with
  | Ok (VStr _) => true
  | Ok t => negb (truthy t)
  | Throw _ => false
  end.

(** [e] is neither [null] nor [undefined], and the [type] among its
    attributes [$], if it has any, is a string. *)
Definition entry_ok (e : value) : bool :=
  match get e "$" with
  | Ok d => negb (truthy d) || type_is_text d
  | Throw _ => false
  end.

Definition collection_ok (v : value) : bool :=
  match v with
  | VArr arr => forallb entry_ok arr
  | _ => true
  end.

(** The value of property [p] of an item that is not [null] or
    [undefined]. *)
Definition field (item : value) (p : string) : value :=
  match get item p with
  | Ok v => v
  | Throw _ => VUndefined
  end.

Definition item_ok (item : value) : bool :=
  match item with
  | VUndefined | VNull => false
  | _ =>
      collection_ok (field item "media:content")
      && collection_ok (field (field item "media") "content")
      && match field item "enclosure" with
         | VArr arr => forallb entry_ok arr
         | enclosure =>
             negb (truthy enclosure)
             || (entry_ok enclosure && type_is_text enclosure)
         end
  end.

(** ** Further observations on a run *)

Definition is_extraction (e : event) : bool :=
  match e with
  | EvDiffbot _ => true
  | _ => false
  end.

(** The calls to the extraction service. *)
Definition extractions (t : list event) : nat :=
  length (List.filter is_extraction t).

Definition is_summarizer_event (e : event) : bool :=
  match e with
  | EvOpenRouter _ => true
  | EvLog (LogSummaryTooShort _) => true
  | EvLog (LogSummarizationError _) => true
  | _ => false
  end.

(** The feeds fetched, in order. *)
Definition parsed (t : list event) : list value :=
  omap (fun e => match e with EvParseURL url => Some url | _ => None end) t.

(** A text as the pipeline stores it: trimmed, of at least 50 words. *)
Definition long_enough (s : string) : Prop :=
  s <> "" /\ 50 <= length (split_ws s) /\ trim s = s.

(** A row of [blogs] as the pipeline writes it for [newsItem]. *)
Definition post_of (newsItem : Candidate) (row : BlogRow) : Prop :=
  exists s, long_enough s /\ row = blogRow newsItem (VStr s) (blog_id row).

(** [attempt_shape] with the budget of paid calls and the accepted
    summary. *)
Definition attempt_profile (env : Env) (newsItem : Candidate) (w : World)
    (res : outcome value * World) : Prop :=
  exists (t0 : list event) (w1 : World),
    trace w1 = trace w ++ EvSelectBlog (link newsItem) :: t0
    /\ same_tables w w1
    /\ Forall (fun e => is_front_event e = true) t0
    /\ extractions t0 <= 1
    /\ length (prompts t0) <= 5
    /\ ((exists line,
           is_skip_line line = true /\ res = (Ok VNull, log (EvLog line) w1))
        \/ (exists s,
              long_enough s
              /\ res = persistence env newsItem (VStr s) w1)).

(** One candidate per item, as lines 284-291 build it, when no item
    throws. *)
Definition candidate_of (env : Env) (k : nat) (feed : FeedRow)
    (parsedFeed : ParsedFeed) (item : value) : outcome Candidate :=
  (imageUrl <- extractMediaUrl item ;;
   itemTitle <- get item "title" ;;
   itemLink <- get item "link" ;;
   itemPubDate <- get item "pubDate" ;;
   published <- js_or itemPubDate (Ok (VStr (now_iso env k))) ;;
   Ok {| title := itemTitle;
         link := itemLink;
         source := feed_title parsedFeed;
         image := imageUrl;
         categoryId := category_id feed;
         pubDate := published |})%js.

(** Where a candidate comes from: event [k] of the trace [t], not before
    event [start], is the fetch of [feed], it did not reject, and lines
    282-291 built [newsItem] from one of the items it gave. *)
Definition item_of (env : Env) (start : nat) (t : list event) (feed : FeedRow)
    (newsItem : Candidate) : Prop :=
  exists (k : nat) (item : value),
    start <= k
    /\ t !! k = Some (EvParseURL (rss_url feed))
    /\ fault env k = None
    /\ In item (items (parseURL_result env k (rss_url feed)))
    /\ candidate_of env (S k) feed (parseURL_result env k (rss_url feed)) item
       = Ok newsItem.

(** The body of an extraction response names no first object with a
    text. *)
Definition no_article_text (data : value) : Prop :=
  forall article,
    (objects <- get data "objects" ;; index_opt objects 0)%js = Ok article ->
    truthy article = true ->
    truthy (field article "text") = false.

(** The feed sources a run reads (line 42): the rows of [rss_feeds] with
    status 1, in table order. *)
Definition active (w : World) : list FeedRow :=
  filter (fun r => status r = 1%Z) (rss_feeds w).

(** The candidate is not of today when the clock is read at event [k]: its
    date is missing, or does not parse, or falls on another day. *)
Definition not_of_today (env : Env) (k : nat) (pubDate : value) : Prop :=
  truthy pubDate = false
  \/ date_of env pubDate = None
  \/ exists newsDate,
       date_of env pubDate = Some newsDate
       /\ same_day newsDate (today env k) = false.

(** The extraction service finds no article. *)
Definition without_articles (e : Env) : Env :=
  {| fault := fault e;
     parseURL_result := parseURL_result e;
     diffbot_data := fun _ _ => VObj {[ "objects" := VArr [] ]};
     openrouter_data := openrouter_data e;
     date_of := date_of e;
     today := today e;
     now_iso := now_iso e |}.

Definition stale_candidate : Candidate :=
  {| title := VStr "Title"; link := VStr "https://e.org/old";
     source := VStr "Feed"; image := VStr ""; categoryId := VNum 7;
     pubDate := VStr "" |}.

Definition item_thumbnail : value :=
  VObj {[ "media:thumbnail" := node [("url", "https://e.org/t.png")];
          "enclosure" := VObj (attributes [("type", "audio/mpeg");
                                           ("url", "https://e.org/a.mp3")]) ]}.

Definition item_videos : value :=
  VObj {[ "media:content" :=
    VArr [node [("type", "video/mp4"); ("url", "https://e.org/v.mp4")];
          node [("type", "audio/mpeg"); ("url", "https://e.org/a.mp3")]] ]}.

Definition news_feed : FeedRow :=
  {| rss_url := VStr "https://e.org/rss"; category_id := VNum 7; status := 1 |}.

Definition parsed_news_feed : ParsedFeed :=
  {| feed_title := VStr "Feed";
     items := [feed_item "https://e.org/a"; item_null_entry;
               feed_item "https://e.org/b"] |}.

(** An active feed between two feeds that are switched off. *)
Definition one_of_three_active : World :=
  {| rss_feeds := [{| rss_url := VStr "https://e.org/off";
                      category_id := VNum 3; status := 0 |};
                   news_feed;
                   {| rss_url := VStr "https://e.org/paused";
                      category_id := VNum 4; status := 2 |}];
     blogs := []; blog_categories := [];
     auto_increment := 1; trace := [] |}.

(** * Properties *)

(** ** Media extractor *)

Lemma truthy_VStr (s : string) : s <> "" -> truthy (VStr s) = true.
Proof.
  intros Hs. simpl. apply negb_true_iff. by apply String.eqb_neq.
Qed.

Lemma get_VObj (props : gmap string value) (p : string) (v : value) :
  props !! p = Some v -> get (VObj props) p = Ok v.
Proof. intros H. simpl. by rewrite H. Qed.

(** An entry whose [type] attribute starts with [image/] satisfies the
    callback of [find], whatever its [medium]. *)
Lemma isImageMedia_image_type (entry attrs : gmap string value) (ty : string) :
  entry !! "$" = Some (VObj attrs) ->
  attrs !! "type" = Some (VStr ty) ->
  String.prefix "image/" ty = true ->
  exists r, isImageMedia (VObj entry) = Ok r /\ truthy r = true.
Proof.
  intros Hd Hty Hp. unfold isImageMedia.
  rewrite (get_VObj _ _ _ Hd). simpl.
  destruct (strict_eq_str _ _); [by eexists |].
  rewrite Hty. cbn [default]. unfold js_and.
  unfold id. rewrite truthy_VStr by (intros ->; discriminate).
  cbn [obind call_startsWith]. rewrite Hp. by eexists.
Qed.

(** Once a method has produced a truthy URL, the later methods keep it. *)
Lemma later_methods_keep (item url : value) :
  truthy url = true ->
  method2 item url = Ok url /\ method3 item url = Ok url
  /\ method4 item url = Ok url.
Proof.
  intros Ht. unfold method2, method3, method4, cond, js_and.
  rewrite Ht. simpl. done.
Qed.

(** C6, as the code has it: with an [image/svg+xml] entry listed first and
    an [image/jpeg] entry second, the extractor returns the URL of the
    first-listed [image/svg+xml] entry (a nonempty string): [find] takes
    the first entry whose type starts with [image/]. *)
Theorem extractMediaUrl_svg_listed_first
    (props svgEntry jpegEntry svgAttrs jpegAttrs : gmap string value)
    (svgUrl : string) :
  props !! "media:content" = Some (VArr [VObj svgEntry; VObj jpegEntry]) ->
  svgEntry !! "$" = Some (VObj svgAttrs) ->
  svgAttrs !! "type" = Some (VStr "image/svg+xml") ->
  svgAttrs !! "url" = Some (VStr svgUrl) ->
  svgUrl <> "" ->
  jpegEntry !! "$" = Some (VObj jpegAttrs) ->
  jpegAttrs !! "type" = Some (VStr "image/jpeg") ->
  extractMediaUrl (VObj props) = Ok (VStr svgUrl).
Proof.
  intros Hmc Hd Hty Hurl Hne _ _.
  assert (method1 (VObj props) (VStr "") = Ok (VStr svgUrl)) as H1.
  { unfold method1, cond. rewrite (get_VObj _ _ _ Hmc). simpl.
    destruct (isImageMedia_image_type svgEntry svgAttrs "image/svg+xml")
      as (r & -> & Hr); [done..|].
    simpl. rewrite Hr. simpl.
    unfold and_dollar, dollar_url, js_and. simpl.
    rewrite Hd. simpl. by rewrite Hurl. }
  destruct (later_methods_keep (VObj props) (VStr svgUrl)) as (H2 & H3 & H4);
    [by apply truthy_VStr |].
  unfold extractMediaUrl. rewrite H1. cbn [obind].
  rewrite H2. cbn [obind]. rewrite H3. cbn [obind]. exact H4.
Qed.

Lemma extractMediaUrl_svg_listed_first_witness :
  extractMediaUrl item_svg_first = Ok (VStr "https://e.org/a.svg").
Proof.
  apply (extractMediaUrl_svg_listed_first
           {[ "media:content" := VArr [node svg_attrs; node jpeg_attrs] ]}
           {[ "$" := VObj (attributes svg_attrs) ]}
           {[ "$" := VObj (attributes jpeg_attrs) ]}
           (attributes svg_attrs) (attributes jpeg_attrs)
           "https://e.org/a.svg");
    try (vm_compute; reflexivity); discriminate.
Defined.

(** C6 as stated fails: on the item of the spec's example the extractor
    does not return the URL of the [image/jpeg] entry. *)
Lemma extractMediaUrl_not_jpeg :
  extractMediaUrl item_svg_first <> Ok (VStr "https://e.org/b.jpg").
Proof. vm_compute. discriminate. Qed.

(** C8 fails on the code: for an item whose [media:content] node has
    attributes but no [url], the extractor returns [undefined], which is
    not a string. *)
Theorem extractMediaUrl_returns_undefined :
  extractMediaUrl item_no_url = Ok VUndefined.
Proof. vm_compute. reflexivity. Qed.

(** A [null] entry in a [media:content] collection makes the callback of
    [find] throw, and the extractor with it. *)
Lemma extractMediaUrl_throws :
  extractMediaUrl item_null_entry
  = Throw "TypeError: Cannot read properties of null".
Proof. vm_compute. reflexivity. Qed.

(** ** Strings *)

Example split_ws_runs :
  split_ws ("a  b" ++ String (ascii_of_nat 9) "c")%string = ["a"; "b"; "c"].
Proof. reflexivity. Qed.

Example split_ws_edges : split_ws " a " = [""; "a"; ""].
Proof. reflexivity. Qed.

Example split_ws_empty : split_ws "" = [""].
Proof. reflexivity. Qed.

Example trim_both_ends :
  trim ("  a b " ++ String (ascii_of_nat 10) "")%string = "a b".
Proof. reflexivity. Qed.

Example words_count : length (split_ws (words 58)) = 58.
Proof. reflexivity. Qed.

(** ** Summarizer *)

Section SummarizerFacts.

Variable env : Env.

Lemma summary_of_shape (data summary : value) :
  summary_of data = Ok summary ->
  summary = VUndefined \/ exists s, summary = VStr s.
Proof.
  unfold summary_of. destruct (message_content data) as [c|]; [|done].
  destruct c; simpl; intros [= <-]; eauto.
Qed.

Lemma summarizeContent_body (articleText : value) (retryCount : nat)
    (w : World) :
  summarizeContent env articleText retryCount w =
  try_catch
    (data <- openrouter env (prompt_for articleText retryCount) ;;
     summary <- lift (summary_of data) ;;
     wordCount <- lift (wordCount_of summary) ;;
     if truthy summary && Nat.ltb wordCount 50 then
       match lt_dec retryCount 4 with
       | left _ =>
           say (LogSummaryTooShort wordCount) ;;;
           summarizeContent env articleText (retryCount + 1)
       | right _ => ret summary
       end
     else ret summary)%run
    (fun msg => say (LogSummarizationError msg) ;;; ret VNull)%run w.
Proof. by rewrite summarizeContent_equation_1. Qed.

(** The summarizer never throws: its handler turns every error into
    [null]. *)
Lemma summarizeContent_returns (articleText : value) (retryCount : nat)
    (w : World) :
  exists v w', summarizeContent env articleText retryCount w = (Ok v, w').
Proof.
  rewrite summarizeContent_body. unfold try_catch.
  match goal with |- context [match ?m w with _ => _ end] =>
    destruct (m w) as [[v|msg] w1] end; eauto.
Qed.

(** One attempt of the summarizer. *)
Lemma summarizeContent_step (articleText : value) (retryCount : nat)
    (w : World) :
  summarizeContent env articleText retryCount w =
  let p := prompt_for articleText retryCount in
  let w1 := log (EvOpenRouter p) w in
  match reply env (length (trace w)) p with
  | Throw msg => (Ok VNull, log (EvLog (LogSummarizationError msg)) w1)
  | Ok summary =>
      if tooShort summary && Nat.ltb retryCount 4 then
        summarizeContent env articleText (retryCount + 1)
          (log (EvLog (LogSummaryTooShort
                         (match summary with
                          | VStr s => length (split_ws s)
                          | _ => 0
                          end))) w1)
      else (Ok summary, w1)
  end.
Proof.
  rewrite summarizeContent_body.
  unfold try_catch, bind, openrouter, external, reply, lift, say, ret.
  destruct (fault env (length (trace w))) as [msg|]; [done|].
  destruct (summary_of _) as [summary|msg] eqn:Hs; [|done].
  destruct (summary_of_shape _ _ Hs) as [->|[s ->]]; [done|].
  unfold wordCount_of, tooShort. simpl.
  destruct (String.eqb s ""); simpl; [done|].
  destruct (Nat.ltb (length (split_ws s)) 50); simpl; [|done].
  destruct (lt_dec retryCount 4) as [Hlt|Hge].
  - apply Nat.ltb_lt in Hlt as ->.
    destruct (summarizeContent_returns articleText (retryCount + 1)
      (log (EvLog (LogSummaryTooShort (length (split_ws s))))
         (log (EvOpenRouter (prompt_for articleText retryCount)) w)))
      as (v & w' & ->).
    done.
  - apply Nat.ltb_nlt in Hge as ->. done.
Qed.

Lemma prompts_app (t1 t2 : list event) :
  prompts (t1 ++ t2) = prompts t1 ++ prompts t2.
Proof. apply omap_app. Qed.

Lemma same_tables_log (e : event) (w : World) : same_tables w (log e w).
Proof. done. Qed.

Lemma same_tables_trans (w1 w2 w3 : World) :
  same_tables w1 w2 -> same_tables w2 w3 -> same_tables w1 w3.
Proof. unfold same_tables. intros (?&?&?&?) (?&?&?&?). repeat split; congruence. Qed.


(** The summarizer only calls the summarization service and writes its
    two console lines; it leaves the tables alone and never throws. *)
Lemma summarizeContent_events (articleText : value) (d : nat) :
  forall (retryCount : nat) (w : World),
    4 - retryCount = d ->
    exists (v : value) (w' : World) (t : list event),
      summarizeContent env articleText retryCount w = (Ok v, w')
      /\ trace w' = trace w ++ t
      /\ same_tables w w'
      /\ Forall (fun e => is_front_event e = true) t.
Proof.
  induction d as [d IH] using lt_wf_ind. intros retryCount w Hd.
  rewrite summarizeContent_step. cbv zeta.
  destruct (reply env _ _) as [summary|msg].
  - destruct (tooShort summary && Nat.ltb retryCount 4) eqn:Hretry.
    + apply andb_true_iff in Hretry as [_ Hlt%Nat.ltb_lt].
      set (w2 := log (EvLog _) (log (EvOpenRouter _) w)).
      destruct (IH (4 - (retryCount + 1)) ltac:(lia) (retryCount + 1) w2 eq_refl)
        as (v & w' & t & Hrun & Ht & Htab & Hev).
      exists v, w', ([EvOpenRouter (prompt_for articleText retryCount);
                      EvLog (LogSummaryTooShort
                               match summary with
                               | VStr s => length (split_ws s)
                               | _ => 0
                               end)] ++ t).
      split; [exact Hrun|].
      split. { rewrite Ht. subst w2. simpl. by rewrite <- !app_assoc. }
      split. { eapply same_tables_trans; [|exact Htab]. done. }
      by repeat constructor.
    + eexists _, _, [_]. repeat split; by repeat constructor.
  - eexists _, _, [_; _]. split; [done|]. split.
    { simpl. by rewrite <- app_assoc. }
    split; [done|]. by repeat constructor.
Qed.

End SummarizerFacts.







(** The mocked service of the specification's retry scenario: a 30-word
    text for the first three calls and a 60-word text for the fourth. *)
Example summarizeContent_fourth_call :
  summarizeContent
    (calm (fun k => VStr (words (if Nat.ltb k 6 then 30 else 60))))
    (VStr "text") 0 empty_world
  = (Ok (VStr (words 60)),
     {| rss_feeds := []; blogs := []; blog_categories := [];
        auto_increment := 1;
        trace := [EvOpenRouter (Primary (VStr "text"));
                  EvLog (LogSummaryTooShort 30);
                  EvOpenRouter (Escalated (VStr "text"));
                  EvLog (LogSummaryTooShort 30);
                  EvOpenRouter (Escalated (VStr "text"));
                  EvLog (LogSummaryTooShort 30);
                  EvOpenRouter (Escalated (VStr "text"))] |}).
Proof. vm_compute. reflexivity. Qed.

(** Thirty words on every call: five calls, and the last text is returned. *)
Example summarizeContent_always_short :
  let '(r, w') := summarizeContent (calm (fun _ => VStr (words 30)))
                    (VStr "text") 0 empty_world in
  r = Ok (VStr (words 30)) /\ length (prompts (trace w')) = 5.
Proof. vm_compute. done. Qed.

(** C10.  When the service answers without error, (1) a missing or empty
    message content makes the summarizer return that empty result after
    this single call, and (2) a second call is issued only when the content
    is a text that, once trimmed, is nonempty and has fewer than 50 words
    (and fewer than 4 retries were made). *)
Theorem summarizeContent_no_content_no_retry (env : Env)
    (articleText : value) (retryCount : nat) (w : World) (content : value) :
  fault env (length (trace w)) = None ->
  message_content
    (openrouter_data env (length (trace w)) (prompt_for articleText retryCount))
  = Ok content ->
  (no_usable_content content ->
   exists summary,
     (summary = VUndefined \/ summary = VStr "")
     /\ summarizeContent env articleText retryCount w
        = (Ok summary, log (EvOpenRouter (prompt_for articleText retryCount)) w))
  /\ (forall r w' t,
        summarizeContent env articleText retryCount w = (r, w') ->
        trace w' = trace w ++ t ->
        1 < length (prompts t) ->
        exists s,
          content = VStr s /\ trim s <> ""
          /\ length (split_ws (trim s)) < 50 /\ retryCount < 4).
Proof.
  intros Hfault Hcontent.
  assert (reply env (length (trace w)) (prompt_for articleText retryCount)
          = call_trim_opt content) as Hreply.
  { unfold reply, summary_of. by rewrite Hfault, Hcontent. }
  split.
  - intros Hnone. rewrite summarizeContent_step. cbv zeta. rewrite Hreply.
    destruct Hnone as [->|[->|(s & -> & Hs)]]; simpl; eauto.
    rewrite Hs. simpl. eauto.
  - intros r w' t Hrun Ht Hcalls.
    rewrite summarizeContent_step in Hrun. cbv zeta in Hrun.
    rewrite Hreply in Hrun.
    destruct (call_trim_opt content) as [summary|msg] eqn:Htrim.
    + destruct (tooShort summary && Nat.ltb retryCount 4) eqn:Hretry.
      * apply andb_true_iff in Hretry as [Hshort Hlt%Nat.ltb_lt].
        destruct content; simpl in Htrim; try discriminate;
          injection Htrim as <-; try discriminate.
        simpl in Hshort. apply andb_true_iff in Hshort as [Hne Hwc].
        apply negb_true_iff, String.eqb_neq in Hne.
        apply Nat.ltb_lt in Hwc. eauto.
      * injection Hrun as _ <-. simpl in Ht.
        apply app_inv_head in Ht as <-. simpl in Hcalls. lia.
    + injection Hrun as _ <-. simpl in Ht. rewrite <- app_assoc in Ht.
      apply app_inv_head in Ht as <-. simpl in Hcalls. lia.
Qed.

Lemma summarizeContent_no_content_no_retry_witness :
  exists summary,
    (summary = VUndefined \/ summary = VStr "")
    /\ summarizeContent (calm (fun _ => VStr "  ")) (VStr "text") 0 empty_world
       = (Ok summary, log (EvOpenRouter (Primary (VStr "text"))) empty_world).
Proof.
  apply (summarizeContent_no_content_no_retry (calm (fun _ => VStr "  "))
           (VStr "text") 0 empty_world (VStr "  ")).
  - reflexivity.
  - vm_compute. reflexivity.
  - right. right. exists "  ". split; reflexivity.
Defined.

(** ** Per-candidate pipeline *)

Section PipelineFacts.

Variable env : Env.

Lemma try_catch_bind {A B} (m : M A) (k : A -> M B) (h : string -> M B)
    (w : World) :
  try_catch (bind m k) h w =
  match m w with
  | (Ok a, w') => try_catch (k a) h w'
  | (Throw e, w') => h e w'
  end.
Proof. unfold try_catch, bind. by destruct (m w) as [[a|e] w']. Qed.

Lemma isNewsFromToday_pure (pubDate : value) (w : World) :
  exists fresh, isNewsFromToday env pubDate w = (Ok fresh, w).
Proof.
  unfold isNewsFromToday. destruct (negb _); [by eexists|].
  destruct (date_of env pubDate); by eexists.
Qed.

(** Lines 234-262 under the handler of line 264. *)
Lemma persistence_stage (newsItem : Candidate) (summary : value)
    (h : string -> M value) (w : World) :
  (forall msg w', h msg w' = (Ok VNull, log (EvLog (LogProcessingError msg)) w')) ->
  try_catch
    (insertedBlogId <- insertBlog env (blogRow newsItem summary) ;;
     (if truthy insertedBlogId && truthy (categoryId newsItem)
      then insertCategory env
             {| bc_blog_id := insertedBlogId;
                bc_category_id := categoryId newsItem;
                bc_type := VStr "category" |}
      else ret tt) ;;;
     say (LogInserted (title newsItem) insertedBlogId (categoryId newsItem)) ;;;
     ret insertedBlogId)%run h w
  = persistence env newsItem summary w.
Proof.
  intros Hh. unfold persistence.
  rewrite try_catch_bind. unfold insertBlog, external.
  destruct (fault env (length (trace w))) as [msg|]; [by rewrite Hh|].
  rewrite try_catch_bind.
  destruct (truthy (VNum (auto_increment w)) && truthy (categoryId newsItem)).
  - unfold insertCategory, external.
    replace (length (trace (add_blog _ _))) with (S (length (trace w)))
      by (simpl; rewrite length_app; simpl; lia).
    destruct (fault env (S (length (trace w)))) as [msg|]; [by rewrite Hh|].
    done.
  - done.
Qed.

Lemma shape_skip (newsItem : Candidate) (w w1 : World) (t0 : list event)
    (line : LogLine) :
  trace w1 = trace w ++ EvSelectBlog (link newsItem) :: t0 ->
  Forall (fun e => is_front_event e = true) t0 ->
  same_tables w w1 ->
  is_skip_line line = true ->
  attempt_shape env newsItem w (Ok VNull, log (EvLog line) w1).
Proof. intros. exists t0, w1. eauto 10. Qed.

Lemma processNews_shape (newsItem : Candidate) (w : World) :
  attempt_shape env newsItem w (processNews env newsItem w).
Proof.
  unfold processNews.
  set (h := fun msg : string => (say (LogProcessingError msg) ;;; ret VNull)%run).
  assert (forall msg w', h msg w'
            = (Ok VNull, log (EvLog (LogProcessingError msg)) w')) as Hh by done.
  clearbody h.
  rewrite try_catch_bind. unfold isNewsProcessed, external.
  set (w1 := log (EvSelectBlog (link newsItem)) w).
  assert (trace w1 = trace w ++ EvSelectBlog (link newsItem) :: []) as Ht1 by done.
  assert (same_tables w w1) as Hs1 by done.
  destruct (fault env (length (trace w))) as [msg|].
  { rewrite Hh. by eapply shape_skip. }
  destruct (Nat.ltb 0 _).
  { by eapply shape_skip. }
  rewrite try_catch_bind.
  destruct (isNewsFromToday_pure (pubDate newsItem) w1) as [fresh ->].
  destruct fresh; cbn [negb]; [|by eapply shape_skip].
  rewrite try_catch_bind. cbn [say].
  rewrite try_catch_bind. unfold diffbot, external.
  set (w2 := log (EvLog (LogProcessing (link newsItem))) w1).
  set (w3 := log (EvDiffbot (link newsItem)) w2).
  assert (trace w3 = trace w ++ EvSelectBlog (link newsItem)
            :: [EvLog (LogProcessing (link newsItem)); EvDiffbot (link newsItem)])
    as Ht3.
  { simpl. by rewrite <- !app_assoc. }
  assert (Forall (fun e => is_front_event e = true)
            [EvLog (LogProcessing (link newsItem)); EvDiffbot (link newsItem)])
    as Hf3 by (by repeat constructor).
  assert (same_tables w w3) as Hs3 by done.
  destruct (fault env (length (trace w2))) as [msg|].
  { rewrite Hh. by eapply shape_skip. }
  rewrite try_catch_bind. unfold lift at 1.
  destruct (objects <- get _ "objects" ;; index_opt objects 0)%js
    as [article0|msg].
  2:{ rewrite Hh. by eapply shape_skip. }
  rewrite try_catch_bind. unfold lift at 1.
  destruct (if truthy article0 then _ else _) as [noText|msg].
  2:{ rewrite Hh. by eapply shape_skip. }
  destruct noText; [by eapply shape_skip|].
  rewrite try_catch_bind. unfold lift at 1.
  destruct (get article0 "text") as [text|msg].
  2:{ rewrite Hh. by eapply shape_skip. }
  rewrite try_catch_bind.
  destruct (summarizeContent_events env text (4 - 0) 0 w3 eq_refl)
    as (summary & w4 & ts & -> & Ht4 & Hs4 & Hf4).
  assert (trace w4 = trace w ++ EvSelectBlog (link newsItem)
            :: ([EvLog (LogProcessing (link newsItem));
                 EvDiffbot (link newsItem)] ++ ts)) as Ht4'.
  { rewrite Ht4, Ht3. by rewrite <- !app_assoc. }
  assert (Forall (fun e => is_front_event e = true)
            ([EvLog (LogProcessing (link newsItem));
              EvDiffbot (link newsItem)] ++ ts)) as Hf4'.
  { by apply Forall_app. }
  assert (same_tables w w4) as Hs4' by (by eapply same_tables_trans).
  rewrite try_catch_bind. unfold lift at 1.
  destruct (if truthy summary then _ else _) as [short|msg].
  2:{ rewrite Hh. by eapply shape_skip. }
  destruct short; [by eapply shape_skip|].
  rewrite (persistence_stage newsItem summary h w4 Hh).
  exists ([EvLog (LogProcessing (link newsItem)); EvDiffbot (link newsItem)] ++ ts), w4.
  eauto 10.
Qed.

(** The pipeline never throws. *)
Lemma processNews_returns (newsItem : Candidate) (w : World) :
  exists v w', processNews env newsItem w = (Ok v, w').
Proof.
  destruct (processNews_shape newsItem w)
    as (t0 & w1 & _ & _ & _ & [(line & _ & ->)|(summary & ->)]); [eauto|].
  unfold persistence. destruct (fault env _); [eauto|].
  destruct (_ && _); [|eauto]. destruct (fault env _); eauto.
Qed.

(** Where the INSERT into [blogs] sits in the trace of an attempt. *)
Lemma insert_position (newsItem : Candidate) (w w1 : World)
    (t0 tail : list event) (i : nat) (row : BlogRow) :
  trace w1 = trace w ++ EvSelectBlog (link newsItem) :: t0 ->
  Forall (fun e => is_front_event e = true) t0 ->
  length (trace w) <= i ->
  (trace w1 ++ tail) !! i = Some (EvInsertBlog row) ->
  exists j, i = length (trace w1) + j /\ tail !! j = Some (EvInsertBlog row).
Proof.
  intros Ht Hfront Hi Hlook.
  destruct (decide (i < length (trace w1))) as [Hlt|Hge].
  - rewrite lookup_app_l in Hlook by done.
    rewrite Ht, lookup_app_r in Hlook by done.
    apply list_elem_of_lookup_2, elem_of_cons in Hlook as [?|Hin]; [done|].
    rewrite Forall_forall in Hfront. by specialize (Hfront _ Hin).
  - rewrite lookup_app_r in Hlook by lia.
    exists (i - length (trace w1)). split; [lia|done].
Qed.

End PipelineFacts.

(** C3.  A candidate whose link is the [source_link] of a row of [blogs]
    is rejected with [null]; the attempt consists of the look-up in
    [blogs] and one console line, so it calls neither the extraction nor
    the summarization service, and it leaves the tables as they were. *)
Theorem processNews_already_persisted (env : Env) (newsItem : Candidate)
    (w : World) (s : string) (row : BlogRow) :
  link newsItem = VStr s ->
  In row (blogs w) ->
  blog_source_link row = VStr s ->
  exists (line : LogLine) (w' : World),
    processNews env newsItem w = (Ok VNull, w')
    /\ trace w' = trace w ++ [EvSelectBlog (VStr s); EvLog line]
    /\ List.filter is_paid_call [EvSelectBlog (VStr s); EvLog line] = []
    /\ same_tables w w'.
Proof.
  intros Hlink Hrow Hsrc.
  unfold processNews. rewrite try_catch_bind.
  unfold isNewsProcessed, external. rewrite Hlink.
  destruct (fault env (length (trace w))) as [msg|].
  - eexists _, _. split; [done|]. split; [|done].
    simpl. by rewrite <- app_assoc.
  - assert (Nat.ltb 0 (length (filter
              (fun r => sql_eq (blog_source_link r) (VStr s) = true)
              (blogs (log (EvSelectBlog (VStr s)) w)))) = true) as ->.
    { apply Nat.ltb_lt. simpl.
      assert (row ∈ filter (fun r => sql_eq (blog_source_link r) (VStr s) = true)
                (blogs w)) as Hin.
      { apply list_elem_of_filter. split.
        - rewrite Hsrc. simpl. apply String.eqb_refl.
        - by apply list_elem_of_In. }
      destruct (filter _ (blogs w)); [by apply elem_of_nil in Hin|simpl; lia]. }
    eexists _, _. split; [done|]. split; [|done].
    simpl. by rewrite <- app_assoc.
Qed.

Lemma processNews_already_persisted_witness :
  exists (line : LogLine) (w' : World),
    processNews (calm (fun _ => VStr (words 60))) (candidate "https://e.org/a")
      (world_with_post "https://e.org/a") = (Ok VNull, w')
    /\ trace w' = trace (world_with_post "https://e.org/a")
                  ++ [EvSelectBlog (VStr "https://e.org/a"); EvLog line]
    /\ List.filter is_paid_call
         [EvSelectBlog (VStr "https://e.org/a"); EvLog line] = []
    /\ same_tables (world_with_post "https://e.org/a") w'.
Proof.
  apply (processNews_already_persisted (calm (fun _ => VStr (words 60)))
           (candidate "https://e.org/a") (world_with_post "https://e.org/a")
           "https://e.org/a" (persisted_row "https://e.org/a")).
  - reflexivity.
  - simpl. left. reflexivity.
  - reflexivity.
Defined.

(** C9.  When the INSERT into [blogs] is event [i] of the attempt and does
    not reject, and the INSERT into [blog_categories] is event [i + 1] and
    rejects, the attempt returns [null], the post row stays in [blogs], no
    category link is stored, and the loop goes on to the next candidate
    with the same count. *)
Theorem processNews_category_failure_keeps_post (env : Env)
    (newsItem : Candidate) (w w' : World) (r : outcome value) (i : nat)
    (row : BlogRow) (categoryLink : CategoryRow) (msg : string) :
  processNews env newsItem w = (r, w') ->
  length (trace w) <= i ->
  trace w' !! i = Some (EvInsertBlog row) ->
  fault env i = None ->
  trace w' !! S i = Some (EvInsertCategory categoryLink) ->
  fault env (S i) = Some msg ->
  r = Ok VNull
  /\ blogs w' = blogs w ++ [row]
  /\ blog_categories w' = blog_categories w
  /\ forall (toProcess : nat) (rest : list Candidate) (processedCount : nat),
       processedCount < toProcess ->
       walk env toProcess (newsItem :: rest) processedCount w
       = walk env toProcess rest processedCount w'.
Proof.
  intros Hrun Hi Hblog Hok Hcat Hfail.
  assert (r = Ok VNull -> forall toProcess rest processedCount,
            processedCount < toProcess ->
            walk env toProcess (newsItem :: rest) processedCount w
            = walk env toProcess rest processedCount w') as Hwalk.
  { intros -> toProcess rest processedCount Hlt. simpl.
    apply Nat.ltb_lt in Hlt as ->. unfold bind at 1. by rewrite Hrun. }
  destruct (processNews_shape env newsItem w)
    as (t0 & w1 & Ht & Hfront & (_ & Hb & Hc & _) & Hcases).
  rewrite Hrun in Hcases.
  destruct Hcases as [(line & _ & [= -> ->])|(summary & Hres)].
  { simpl in Hblog.
    destruct (insert_position newsItem w w1 t0 _ i row Ht Hfront Hi Hblog)
      as ([|[|j]] & _ & Hj); discriminate. }
  unfold persistence in Hres.
  destruct (fault env (length (trace w1))) as [msg1|] eqn:Hf1.
  { injection Hres as -> ->. simpl in Hblog. rewrite <- app_assoc in Hblog.
    destruct (insert_position newsItem w w1 t0 _ i row Ht Hfront Hi Hblog)
      as ([|[|[|j]]] & -> & Hj); try discriminate.
    rewrite Nat.add_0_r in Hok. congruence. }
  destruct (truthy (VNum (auto_increment w1)) && truthy (categoryId newsItem)).
  - destruct (fault env (S (length (trace w1)))) as [msg2|] eqn:Hf2.
    + injection Hres as -> ->. simpl in Hblog. rewrite <- !app_assoc in Hblog.
      destruct (insert_position newsItem w w1 t0 _ i row Ht Hfront Hi Hblog)
        as ([|[|[|[|j]]]] & -> & Hj); try discriminate.
      injection Hj as <-. split; [done|].
      split; [simpl; by rewrite Hb|].
      split; [simpl; by rewrite Hc|by apply Hwalk].
    + injection Hres as -> ->. simpl in Hblog, Hcat.
      rewrite <- !app_assoc in Hblog.
      destruct (insert_position newsItem w w1 t0 _ i row Ht Hfront Hi Hblog)
        as ([|[|[|[|j]]]] & -> & Hj); try discriminate.
      rewrite Nat.add_0_r in Hfail. congruence.
  - injection Hres as -> ->. simpl in Hblog, Hcat.
    rewrite <- !app_assoc in Hblog, Hcat.
    destruct (insert_position newsItem w w1 t0 _ i row Ht Hfront Hi Hblog)
      as ([|[|[|j]]] & -> & Hj); try discriminate.
    rewrite Nat.add_0_r in Hcat.
    rewrite lookup_app_r in Hcat by lia.
    replace (S (length (trace w1)) - length (trace w1)) with 1 in Hcat by lia.
    discriminate.
Qed.

Lemma processNews_category_failure_keeps_post_witness :
  let env := with_fault (failing_at 5 "ER_LOCK_DEADLOCK") sixty_words in
  let res := processNews env (candidate "https://e.org/a") empty_world in
  fst res = Ok VNull
  /\ blogs (snd res)
     = blogs empty_world
       ++ [blogRow (candidate "https://e.org/a") (VStr (words 60)) 1]
  /\ blog_categories (snd res) = blog_categories empty_world.
Proof.
  intros env res.
  destruct (processNews_category_failure_keeps_post env
              (candidate "https://e.org/a") empty_world (snd res) (fst res) 4
              (blogRow (candidate "https://e.org/a") (VStr (words 60)) 1)
              (categoryRow (candidate "https://e.org/a") (VNum 1))
              "ER_LOCK_DEADLOCK")
    as (H1 & H2 & H3 & _).
  - apply surjective_pairing.
  - simpl. lia.
  - vm_compute. reflexivity.
  - reflexivity.
  - vm_compute. reflexivity.
  - reflexivity.
  - auto.
Defined.

(** ** The loop over the candidates *)

Lemma succeeded_app (t1 t2 : list event) :
  succeeded (t1 ++ t2) = succeeded t1 + succeeded t2.
Proof. unfold succeeded. by rewrite List.filter_app, length_app. Qed.

Lemma delays_app (t1 t2 : list event) :
  delays (t1 ++ t2) = delays t1 + delays t2.
Proof. unfold delays. by rewrite List.filter_app, length_app. Qed.

Lemma attempted_app (t1 t2 : list event) :
  attempted (t1 ++ t2) = attempted t1 ++ attempted t2.
Proof. apply omap_app. Qed.

(** Front events are neither look-ups, nor delays, nor insertion reports. *)
Lemma front_events_silent (t0 : list event) :
  Forall (fun e => is_front_event e = true) t0 ->
  attempted t0 = [] /\ delays t0 = 0 /\ succeeded t0 = 0
  /\ (forall cap count t, starts_below cap count (t0 ++ t) = starts_below cap count t)
  /\ (forall b e t, is_delay e = false ->
        delays_after_insert b (t0 ++ e :: t) = delays_after_insert (is_inserted e) t).
Proof.
  induction 1 as [|e t0 He Hfront (IHa & IHd & IHs & IHb & IHi)].
  - repeat split; try done. intros b e t He. by destruct e.
  - destruct e as [[]| | | | | | | | | |]; try discriminate; repeat split; try done.
    all: try (intros cap count t; simpl; apply IHb).
    all: intros b e t Hd; simpl; by apply IHi.
Qed.

(** What the loop sees of one attempt: it returns, it starts with the
    look-up of the candidate's link, it contains no delay, and it reports
    an insertion, as its last event, exactly when the result is not
    [null]. *)
Lemma processNews_attempt (env : Env) (newsItem : Candidate) (w : World) :
  exists (v : value) (w' : World) (ta : list event),
    processNews env newsItem w = (Ok v, w')
    /\ trace w' = trace w ++ ta
    /\ attempted ta = [link newsItem]
    /\ delays ta = 0
    /\ succeeded ta = (if is_null v then 0 else 1)
    /\ (forall cap count t,
          starts_below cap count (ta ++ t)
          = Nat.ltb count cap && starts_below cap (count + succeeded ta) t)
    /\ (forall b t,
          delays_after_insert b (ta ++ t)
          = delays_after_insert (negb (is_null v)) t).
Proof.
  destruct (processNews_shape env newsItem w)
    as (t0 & w1 & Ht & Hfront & _ & Hcases).
  destruct (front_events_silent t0 Hfront) as (Ha & Hd & Hs & Hb & Hi).
  assert (forall (v : value) (w' : World) (tail : list event) (e : event),
            processNews env newsItem w = (Ok v, w') ->
            trace w' = trace w1 ++ e :: tail ->
            is_delay e = false ->
            attempted (e :: tail) = [] -> delays (e :: tail) = 0 ->
            succeeded (e :: tail) = (if is_null v then 0 else 1) ->
            (forall cap count t,
               starts_below cap count ((e :: tail) ++ t)
               = starts_below cap (count + succeeded (e :: tail)) t) ->
            (forall t, delays_after_insert (is_inserted e) (tail ++ t)
                       = delays_after_insert (negb (is_null v)) t) ->
            exists (v : value) (w' : World) (ta : list event),
              processNews env newsItem w = (Ok v, w')
              /\ trace w' = trace w ++ ta
              /\ attempted ta = [link newsItem]
              /\ delays ta = 0
              /\ succeeded ta = (if is_null v then 0 else 1)
              /\ (forall cap count t,
                    starts_below cap count (ta ++ t)
                    = Nat.ltb count cap
                      && starts_below cap (count + succeeded ta) t)
              /\ (forall b t,
                    delays_after_insert b (ta ++ t)
                    = delays_after_insert (negb (is_null v)) t)) as Hleaf.
  { intros v w' tail e Hrun Htr He Hat Hde Hsu Hsb Hdi.
    exists v, w', (EvSelectBlog (link newsItem) :: t0 ++ e :: tail).
    assert (succeeded (EvSelectBlog (link newsItem) :: t0 ++ e :: tail)
            = succeeded (e :: tail)) as Hsucc.
    { change (succeeded (t0 ++ e :: tail) = succeeded (e :: tail)).
      rewrite succeeded_app, Hs. done. }
    split; [done|].
    split. { rewrite Htr, Ht. by rewrite <- app_assoc. }
    split. { change (link newsItem :: attempted (t0 ++ e :: tail) = [link newsItem]).
             by rewrite attempted_app, Ha, Hat. }
    split. { change (delays (t0 ++ e :: tail) = 0).
             by rewrite delays_app, Hd, Hde. }
    split. { by rewrite Hsucc. }
    split.
    - intros cap count t. rewrite Hsucc. cbn [app starts_below].
      rewrite <- app_assoc, Hb. f_equal. apply Hsb.
    - intros b t. cbn [app delays_after_insert is_inserted].
      rewrite <- app_assoc. cbn [app]. rewrite Hi by done. apply Hdi. }
  destruct Hcases as [(line & Hline & Hrun)|(summary & Hrun)].
  - assert (is_inserted (EvLog line) = false) as Hni
      by (by destruct line).
    eapply (Hleaf _ _ [] (EvLog line) Hrun); try done.
    + unfold succeeded. cbn [List.filter]. by rewrite Hni.
    + intros cap count t. unfold succeeded. cbn [List.filter app starts_below].
      rewrite Hni. simpl. by rewrite Nat.add_0_r.
    + intros t. cbn [app is_null negb]. by rewrite Hni.
  - unfold persistence in Hrun.
    destruct (fault env (length (trace w1))) as [msg|];
      [|destruct (truthy _ && truthy _);
        [destruct (fault env (S (length (trace w1)))) as [msg|]|]].
    all: eapply (Hleaf _ _ _ (EvInsertBlog _) Hrun);
      [simpl; by rewrite <- ?app_assoc
      |done..
      |intros; cbn; by rewrite ?Nat.add_0_r, ?Nat.add_1_r
      |done].
Qed.

Lemma delays_after_insert_mono (t : list event) :
  delays_after_insert false t = true -> delays_after_insert true t = true.
Proof. destruct t as [|[] t]; simpl; try done. Qed.

(** The loop from any index on, with [processedCount] insertions so far. *)
Lemma walk_spec (env : Env) (cap : nat) (rest : list Candidate) :
  forall (processedCount : nat) (w : World),
    processedCount <= cap ->
    exists (t : list event) (count : nat) (w' : World) (k : nat),
      walk env cap rest processedCount w = (Ok count, w')
      /\ trace w' = trace w ++ t
      /\ count = processedCount + succeeded t
      /\ count <= cap
      /\ k <= length rest
      /\ attempted t = map link (take k rest)
      /\ (k < length rest -> count = cap)
      /\ starts_below cap processedCount t = true
      /\ delays t = Nat.min (succeeded t) (cap - 1 - processedCount)
      /\ delays_after_insert false t = true.
Proof.
  induction rest as [|newsItem rest IH]; intros pc w Hpc.
  { exists [], pc, w, 0. simpl. rewrite app_nil_r.
    repeat split; try done; lia. }
  simpl. destruct (Nat.ltb pc cap) eqn:Hlt.
  2:{ apply Nat.ltb_nlt in Hlt. exists [], pc, w, 0. simpl. rewrite app_nil_r.
      repeat split; try done; lia. }
  apply Nat.ltb_lt in Hlt. unfold bind at 1.
  destruct (processNews_attempt env newsItem w)
    as (v & w1 & ta & -> & Hta & Hatt & Hdel & Hsucc & Hsb & Hdi).
  destruct (is_null v) eqn:Hnull; cbn [negb].
  - destruct (IH pc w1 Hpc)
      as (t & count & w' & k & Hrun & Ht & Hcount & Hle & Hk & Hat & Hstop
          & Hbelow & Hdelays & Hafter).
    exists (ta ++ t), count, w', (S k).
    split; [done|].
    split. { by rewrite Ht, Hta, <- app_assoc. }
    rewrite succeeded_app, delays_app, attempted_app, Hsb, Hdi, Hsucc, Hdel, Hatt.
    rewrite Nat.add_0_r.
    repeat split; try done; try lia; try (simpl; lia).
    + simpl. by rewrite Hat.
    + apply andb_true_iff. split; [by apply Nat.ltb_lt|done].
  - unfold bind at 1.
    destruct (Nat.ltb (S pc) cap) eqn:Hmore.
    + apply Nat.ltb_lt in Hmore. unfold delay.
      destruct (IH (S pc) (log (EvDelay 12000) w1) ltac:(lia))
        as (t & count & w' & k & Hrun & Ht & Hcount & Hle & Hk & Hat & Hstop
            & Hbelow & Hdelays & Hafter).
      exists (ta ++ EvDelay 12000 :: t), count, w', (S k).
      split; [done|].
      split. { rewrite Ht. simpl. by rewrite Hta, <- !app_assoc. }
      rewrite succeeded_app, delays_app, attempted_app, Hsb, Hdi, Hsucc, Hdel, Hatt.
      change (succeeded (EvDelay 12000 :: t)) with (succeeded t).
      change (delays (EvDelay 12000 :: t)) with (S (delays t)).
      change (attempted (EvDelay 12000 :: t)) with (attempted t).
      cbn [starts_below delays_after_insert is_inserted].
      rewrite Nat.add_1_r, Hbelow, Hafter.
      repeat split; try done; try lia; try (simpl; lia).
      * simpl. by rewrite Hat.
      * apply andb_true_iff. split; [by apply Nat.ltb_lt|done].
    + apply Nat.ltb_nlt in Hmore. unfold ret at 1.
      destruct (IH (S pc) w1 ltac:(lia))
        as (t & count & w' & k & Hrun & Ht & Hcount & Hle & Hk & Hat & Hstop
            & Hbelow & Hdelays & Hafter).
      exists (ta ++ t), count, w', (S k).
      split; [done|].
      split. { by rewrite Ht, Hta, <- app_assoc. }
      rewrite succeeded_app, delays_app, attempted_app, Hsb, Hdi, Hsucc, Hdel, Hatt.
      rewrite Nat.add_1_r, Hbelow.
      repeat split; try done; try lia; try (simpl; lia).
      * simpl. by rewrite Hat.
      * apply andb_true_iff. split; [by apply Nat.ltb_lt|done].
      * by apply delays_after_insert_mono.
Qed.

Lemma starts_below_split (cap : nat) (t1 : list event) :
  forall (count : nat) (url : value) (t2 : list event),
    starts_below cap count (t1 ++ EvSelectBlog url :: t2) = true ->
    count + succeeded t1 < cap.
Proof.
  induction t1 as [|e t1 IH]; intros count url t2 H.
  - simpl in H. apply andb_true_iff in H as [H%Nat.ltb_lt _].
    unfold succeeded. simpl. lia.
  - assert (succeeded (e :: t1)
            = (if is_inserted e then 1 else 0) + succeeded t1) as ->.
    { unfold succeeded. simpl. by destruct (is_inserted e). }
    destruct e as [line| | | |u| | | | | |]; simpl in H;
      try (specialize (IH _ _ _ H); simpl; lia).
    + destruct line; specialize (IH _ _ _ H); simpl; lia.
    + apply andb_true_iff in H as [_ H]. specialize (IH _ _ _ H). simpl. lia.
Qed.



(** C5.  The loop attempts a prefix of the candidates, in aggregation
    order; the returned count is the number of insertions reported, so a
    failed candidate takes no slot; the prefix is the whole list unless
    [itemsToProcess] insertions were reached; and every attempt starts
    while fewer than [itemsToProcess] insertions have been reported, so no
    candidate is attempted once the cap is reached. *)
Theorem walk_in_aggregation_order (env : Env) (newsLinks : list Candidate)
    (w : World) :
  exists (t : list event) (count : nat) (w' : World) (k : nat),
    walk env (itemsToProcess newsLinks) newsLinks 0 w = (Ok count, w')
    /\ trace w' = trace w ++ t
    /\ k <= length newsLinks
    /\ attempted t = map link (take k newsLinks)
    /\ count = succeeded t
    /\ count <= itemsToProcess newsLinks
    /\ (k < length newsLinks -> count = itemsToProcess newsLinks)
    /\ (forall t1 url t2,
          t = t1 ++ EvSelectBlog url :: t2 ->
          succeeded t1 < itemsToProcess newsLinks).
Proof.
  destruct (walk_spec env (itemsToProcess newsLinks) newsLinks 0 w ltac:(lia))
    as (t & count & w' & k & Hrun & Ht & Hcount & Hle & Hk & Hat & Hstop
        & Hbelow & _ & _).
  exists t, count, w', k. do 6 (split; [done|]). split; [done|].
  intros t1 url t2 ->. by apply starts_below_split in Hbelow.
Qed.


(** ** The run *)

Section RunFacts.

Variable env : Env.

(** Aggregation never throws, attempts no candidate and does not touch
    the tables. *)
Lemma aggregate_returns (rssFeeds : list FeedRow) :
  forall (newsLinks : list Candidate) (w : World),
    exists (aggregated : list Candidate) (w' : World) (t : list event),
      aggregate env rssFeeds newsLinks w = (Ok aggregated, w')
      /\ trace w' = trace w ++ t
      /\ attempted t = []
      /\ same_tables w w'.
Proof.
  induction rssFeeds as [|feed rest IH]; intros newsLinks w.
  { exists newsLinks, w, []. by rewrite app_nil_r. }
  simpl. unfold parseURL, external.
  destruct (fault env (length (trace w))) as [msg|].
  - unfold bind, say.
    destruct (IH newsLinks (log (EvLog (LogFeedError (rss_url feed) msg))
                              (log (EvParseURL (rss_url feed)) w)))
      as (aggregated & w' & t & -> & Ht & Hat & Htab).
    exists aggregated, w',
      ([EvParseURL (rss_url feed); EvLog (LogFeedError (rss_url feed) msg)] ++ t).
    split; [done|]. split; [|by rewrite attempted_app, Hat].
    rewrite Ht. simpl. by rewrite <- !app_assoc.
  - destruct (pushItems env _ feed _ _ newsLinks) as [[[]|msg] pushed].
    + destruct (IH pushed (log (EvParseURL (rss_url feed)) w))
        as (aggregated & w' & t & -> & Ht & Hat & Htab).
      exists aggregated, w', ([EvParseURL (rss_url feed)] ++ t).
      split; [done|]. split; [|by rewrite attempted_app, Hat].
      rewrite Ht. simpl. by rewrite <- !app_assoc.
    + unfold bind, say.
      destruct (IH pushed (log (EvLog (LogFeedError (rss_url feed) msg))
                             (log (EvParseURL (rss_url feed)) w)))
        as (aggregated & w' & t & -> & Ht & Hat & Htab).
      exists aggregated, w',
        ([EvParseURL (rss_url feed); EvLog (LogFeedError (rss_url feed) msg)] ++ t).
      split; [done|]. split; [|by rewrite attempted_app, Hat].
      rewrite Ht. simpl. by rewrite <- !app_assoc.
Qed.

(** The block guarded by [finally], once the feed sources are loaded. *)
Lemma run_body (rssFeeds : list FeedRow) (w : World) :
  exists (newsLinks : list Candidate) (count : nat) (w1 w' : World)
         (ta tw : list event),
    aggregate env rssFeeds [] w = (Ok newsLinks, w1)
    /\ (newsLinks <- aggregate env rssFeeds [] ;;
        say (LogFound (length newsLinks)) ;;;
        say (LogProcessingUpTo (itemsToProcess newsLinks)) ;;;
        processedCount <- walk env (itemsToProcess newsLinks) newsLinks 0 ;;
        say (LogCompleted processedCount) ;;;
        ret processedCount)%run w = (Ok count, w')
    /\ trace w1 = trace w ++ ta
    /\ attempted ta = []
    /\ trace w' = trace w1
                  ++ [EvLog (LogFound (length newsLinks));
                      EvLog (LogProcessingUpTo (itemsToProcess newsLinks))]
                  ++ tw ++ [EvLog (LogCompleted count)]
    /\ count = succeeded tw
    /\ count <= itemsToProcess newsLinks.
Proof.
  destruct (aggregate_returns rssFeeds [] w)
    as (newsLinks & w1 & ta & Hagg & Hta & Hatt & _).
  set (w2 := log (EvLog (LogProcessingUpTo (itemsToProcess newsLinks)))
               (log (EvLog (LogFound (length newsLinks))) w1)).
  destruct (walk_spec env (itemsToProcess newsLinks) newsLinks 0 w2 ltac:(lia))
    as (tw & count & w3 & k & Hwalk & Htw & Hcount & Hle & _).
  exists newsLinks, count, w1, (log (EvLog (LogCompleted count)) w3), ta, tw.
  split; [done|]. split.
  { unfold bind at 1. rewrite Hagg. unfold bind, say, ret. fold w2.
    by rewrite Hwalk. }
  split; [done|]. split; [done|]. split; [|done].
  simpl. rewrite Htw. subst w2. simpl. by rewrite <- !app_assoc.
Qed.

Lemma length_log (e : event) (w : World) :
  length (trace (log e w)) = S (length (trace w)).
Proof. simpl. rewrite length_app. simpl. lia. Qed.

(** C7, as the code has it.  A run throws only when opening the pool,
    loading the feed sources or closing the pool rejects: if opening the
    pool rejects, the error reaches the caller and there is no pool to
    close; otherwise [db.end()] is the last call of the run on every exit,
    an error of [db.end()] reaches the caller, an error of the feed query
    reaches the caller, and in every other case, whatever fails for a feed
    or a candidate, the run returns a count. *)
Theorem fetchAndProcessNews_errors_and_cleanup (w : World) :
  let '(r, w') := fetchAndProcessNews env w in
  match fault env (length (trace w)) with
  | Some msg => r = Throw msg /\ trace w' = trace w ++ [EvCreatePool]
  | None =>
      exists t,
        trace w' = trace w ++ EvCreatePool :: EvSelectFeeds :: t ++ [EvPoolEnd]
        /\ match fault env (length (trace w') - 1) with
           | Some msg => r = Throw msg
           | None =>
               match fault env (S (length (trace w))) with
               | Some msg => r = Throw msg
               | None => exists count, r = Ok count
               end
           end
  end.
Proof.
  unfold fetchAndProcessNews. unfold bind at 1.
  unfold createDbConnection, external.
  destruct (fault env (length (trace w))) as [msg|]; [done|].
  unfold try_finally. unfold bind at 1. unfold fetchRSSFeeds, external.
  rewrite (length_log EvCreatePool w).
  set (w2 := log EvSelectFeeds (log EvCreatePool w)).
  assert (trace w2 = trace w ++ [EvCreatePool; EvSelectFeeds]) as Ht2.
  { simpl. by rewrite <- app_assoc. }
  destruct (fault env (S (length (trace w)))) as [msg|].
  - unfold poolEnd, external.
    assert (length (trace (log EvPoolEnd w2)) - 1 = length (trace w2)) as Hlen.
    { rewrite length_log. lia. }
    destruct (fault env (length (trace w2))) as [msg'|] eqn:Hend.
    + exists []. rewrite Hlen, Hend. split; [|done].
      simpl. by rewrite <- !app_assoc.
    + exists []. rewrite Hlen, Hend. split; [|done].
      simpl. by rewrite <- !app_assoc.
  - destruct (run_body (filter (fun r => status r = 1%Z) (rss_feeds w2)) w2)
      as (newsLinks & count & w3 & w4 & ta & tw & _ & -> & Hta & _ & Htw & _ & _).
    unfold poolEnd, external.
    assert (length (trace (log EvPoolEnd w4)) - 1 = length (trace w4)) as Hlen.
    { rewrite length_log. lia. }
    assert (trace (log EvPoolEnd w4)
            = trace w ++ EvCreatePool :: EvSelectFeeds
                :: (ta ++ [EvLog (LogFound (length newsLinks));
                           EvLog (LogProcessingUpTo (itemsToProcess newsLinks))]
                       ++ tw ++ [EvLog (LogCompleted count)]) ++ [EvPoolEnd])
      as Htr.
    { simpl. rewrite Htw, Hta, Ht2. rewrite <- !app_assoc. simpl.
      by rewrite <- ?app_assoc. }
    destruct (fault env (length (trace w4))) as [msg'|] eqn:Hend.
    + eexists. rewrite Hlen, Hend. split; [exact Htr|done].
    + eexists. rewrite Hlen, Hend. split; [exact Htr|eauto].
Qed.

(** C2, as the code has it.  When the pool opens and the feed sources
    load, the run reports [itemsToProcess], which is the minimum of 3 and
    the number of candidates aggregated, right after the aggregation and
    before any candidate is attempted and so meets the filter; the number
    of insertions stays within it. *)
Theorem itemsToProcess_counts_aggregated (w : World) :
  fault env (length (trace w)) = None ->
  fault env (S (length (trace w))) = None ->
  exists (newsLinks : list Candidate) (count : nat) (ta tw : list event),
    fst (aggregate env (filter (fun r => status r = 1%Z) (rss_feeds w)) []
           (log EvSelectFeeds (log EvCreatePool w))) = Ok newsLinks
    /\ trace (snd (fetchAndProcessNews env w))
       = trace w ++ [EvCreatePool; EvSelectFeeds] ++ ta
         ++ [EvLog (LogFound (length newsLinks));
             EvLog (LogProcessingUpTo (itemsToProcess newsLinks))]
         ++ tw ++ [EvLog (LogCompleted count); EvPoolEnd]
    /\ attempted ta = []
    /\ itemsToProcess newsLinks = Nat.min 3 (length newsLinks)
    /\ count = succeeded tw
    /\ count <= itemsToProcess newsLinks.
Proof.
  intros Hpool Hfeeds.
  unfold fetchAndProcessNews. unfold bind at 1.
  unfold createDbConnection, external. rewrite Hpool.
  unfold try_finally. unfold bind at 1. unfold fetchRSSFeeds, external.
  rewrite (length_log EvCreatePool w), Hfeeds.
  set (w2 := log EvSelectFeeds (log EvCreatePool w)).
  destruct (run_body (filter (fun r => status r = 1%Z) (rss_feeds w2)) w2)
    as (newsLinks & count & w3 & w4 & ta & tw & Hagg & -> & Hta & Hatt & Htw
        & Hcount & Hle).
  exists newsLinks, count, ta, tw.
  split. { change (rss_feeds w2) with (rss_feeds w) in Hagg. by rewrite Hagg. }
  split; [|done].
  assert (trace (log EvPoolEnd w4)
          = trace w ++ [EvCreatePool; EvSelectFeeds] ++ ta
            ++ [EvLog (LogFound (length newsLinks));
                EvLog (LogProcessingUpTo (itemsToProcess newsLinks))]
            ++ tw ++ [EvLog (LogCompleted count); EvPoolEnd]) as Htr.
  { simpl. rewrite Htw, Hta. simpl. rewrite <- !app_assoc. simpl.
    by rewrite <- ?app_assoc. }
  unfold poolEnd, external. by destruct (fault env (length (trace w4))).
Qed.

End RunFacts.

Lemma itemsToProcess_counts_aggregated_witness :
  exists (newsLinks : list Candidate) (count : nat) (ta tw : list event),
    fst (aggregate two_items
           (filter (fun r => status r = 1%Z) (rss_feeds b_already_stored)) []
           (log EvSelectFeeds (log EvCreatePool b_already_stored)))
    = Ok newsLinks
    /\ trace (snd (fetchAndProcessNews two_items b_already_stored))
       = trace b_already_stored ++ [EvCreatePool; EvSelectFeeds] ++ ta
         ++ [EvLog (LogFound (length newsLinks));
             EvLog (LogProcessingUpTo (itemsToProcess newsLinks))]
         ++ tw ++ [EvLog (LogCompleted count); EvPoolEnd]
    /\ attempted ta = []
    /\ itemsToProcess newsLinks = Nat.min 3 (length newsLinks)
    /\ count = succeeded tw
    /\ count <= itemsToProcess newsLinks.
Proof.
  apply (itemsToProcess_counts_aggregated two_items b_already_stored);
    reflexivity.
Defined.

(** C2 as stated fails: of the two candidates aggregated, only [a] passes
    the filter, yet the run reports a cap of 2, not [min 3 1]. *)
Lemma itemsToProcess_not_from_survivors :
  fst (aggregate two_items
         (filter (fun r => status r = 1%Z) (rss_feeds b_already_stored)) []
         (log EvSelectFeeds (log EvCreatePool b_already_stored)))
  = Ok two_candidates
  /\ List.filter (survives two_items b_already_stored 0) two_candidates
     = [candidate "https://e.org/a"]
  /\ trace (snd (fetchAndProcessNews two_items b_already_stored)) !! 4
     = Some (EvLog (LogProcessingUpTo 2))
  /\ itemsToProcess two_candidates
     <> Nat.min 3 (length (List.filter (survives two_items b_already_stored 0)
                             two_candidates)).
Proof. vm_compute. repeat split; discriminate. Qed.


(** C7 as stated fails: neither opening the pool nor loading the feed
    sources rejects, yet the error of [db.end()] reaches the caller. *)
Lemma pool_end_error_propagates :
  let env := with_fault (failing_at 5 "Pool is closed.") sixty_words in
  fault env 0 = None /\ fault env 1 = None
  /\ fst (fetchAndProcessNews env empty_world) = Throw "Pool is closed.".
Proof. vm_compute. done. Qed.

(** The specification's scenario for the cap and the throttling: of ten
    candidates the second and the fourth fail (they are stored already);
    the loop attempts the first five, inserts three, and waits twice. *)
Example three_of_ten :
  let w := one_feed [persisted_row "2"; persisted_row "4"] in
  let t := trace (snd (fetchAndProcessNews ten_items w)) in
  fst (fetchAndProcessNews ten_items w) = Ok 3
  /\ attempted t = map (fun n => VStr (pretty n)) (seq 1 5)
  /\ succeeded t = 3 /\ delays t = 2.
Proof. vm_compute. done. Qed.

(** The specification's end-to-end scenario: one fresh item not yet stored,
    an extracted text and a 58-word summary give one row of [blogs] with
    that summary and one row of [blog_categories] with its id. *)
Example one_fresh_item :
  let env := with_items [feed_item "https://e.org/a"]
               (calm (fun _ => VStr (words 58))) in
  let '(r, w') := fetchAndProcessNews env (one_feed []) in
  r = Ok 1
  /\ blogs w' = [blogRow (candidate "https://e.org/a") (VStr (words 58)) 10]
  /\ blog_categories w'
     = [categoryRow (candidate "https://e.org/a") (VNum 10)].
Proof. vm_compute. done. Qed.

(** Thirty words on every call: the summarizer gives up after five calls
    and the pipeline rejects the candidate. *)
Example short_summary_rejected :
  let env := calm (fun _ => VStr (words 30)) in
  let '(r, w') := processNews env (candidate "https://e.org/a") empty_world in
  r = Ok VNull /\ blogs w' = [] /\ length (prompts (trace w')) = 5
  /\ last (trace w')
     = Some (EvLog (LogSummaryRejected (VStr "https://e.org/a"))).
Proof. vm_compute. done. Qed.

(** * Further properties *)

(** ** Media extractor: the four fields in turn *)

Lemma get_field (item : value) (p : string) :
  item <> VUndefined -> item <> VNull -> get item p = Ok (field item p).
Proof. intros H1 H2. unfold field. by destruct item. Qed.

Lemma get_truthy (v : value) (p : string) :
  truthy v = true -> get v p = Ok (field v p).
Proof. intros H. apply get_field; by intros ->. Qed.

(** Methods 2 to 4 leave the URL alone when their field is missing. *)
Lemma method2_skips (item url : value) :
  item <> VUndefined -> item <> VNull ->
  truthy (field item "media") = false -> method2 item url = Ok url.
Proof.
  intros H1 H2 Hm. unfold method2, cond, js_and. rewrite !get_field by done.
  destruct (truthy url); cbn [negb truthy obind]; [done|].
  rewrite Hm. cbn [obind truthy]. by rewrite Hm.
Qed.

Lemma method3_skips (item url : value) :
  item <> VUndefined -> item <> VNull ->
  truthy (field item "media:thumbnail") = false -> method3 item url = Ok url.
Proof.
  intros H1 H2 Hm. unfold method3, cond, js_and. rewrite !get_field by done.
  destruct (truthy url); cbn [negb truthy obind]; [done|]. by rewrite Hm.
Qed.

Lemma method4_skips (item url : value) :
  item <> VUndefined -> item <> VNull ->
  truthy (field item "enclosure") = false -> method4 item url = Ok url.
Proof.
  intros H1 H2 Hm. unfold method4, cond, js_and. rewrite !get_field by done.
  destruct (truthy url); cbn [negb truthy obind]; [done|]. by rewrite Hm.
Qed.

Lemma method1_skips (item url : value) :
  item <> VUndefined -> item <> VNull ->
  truthy (field item "media:content") = false -> method1 item url = Ok url.
Proof.
  intros H1 H2 Hm. unfold method1, cond. rewrite !get_field by done.
  cbn [obind]. by rewrite Hm.
Qed.

(** X1.  An item with none of the four fields yields the empty string. *)
Theorem extractMediaUrl_no_field (item : value) :
  item <> VUndefined -> item <> VNull ->
  truthy (field item "media:content") = false ->
  truthy (field item "media") = false ->
  truthy (field item "media:thumbnail") = false ->
  truthy (field item "enclosure") = false ->
  extractMediaUrl item = Ok (VStr "").
Proof.
  intros H1 H2 Hc Hm Ht He. unfold extractMediaUrl.
  rewrite method1_skips by done. cbn [obind].
  rewrite method2_skips by done. cbn [obind].
  rewrite method3_skips by done. cbn [obind].
  by apply method4_skips.
Qed.

Lemma extractMediaUrl_no_field_witness :
  extractMediaUrl (feed_item "https://e.org/a") = Ok (VStr "").
Proof.
  apply extractMediaUrl_no_field; try discriminate; reflexivity.
Defined.

(** X2.  Without [media:content] and [media], the URL among the attributes
    of [media:thumbnail] is returned, whatever the enclosure is. *)
Theorem extractMediaUrl_thumbnail (item : value)
    (thumbnail attrs : gmap string value) (url : string) :
  item <> VUndefined -> item <> VNull ->
  truthy (field item "media:content") = false ->
  truthy (field item "media") = false ->
  field item "media:thumbnail" = VObj thumbnail ->
  thumbnail !! "$" = Some (VObj attrs) ->
  attrs !! "url" = Some (VStr url) ->
  url <> "" ->
  extractMediaUrl item = Ok (VStr url).
Proof.
  intros H1 H2 Hc Hm Ht Hd Hu Hne. unfold extractMediaUrl.
  rewrite method1_skips by done. cbn [obind].
  rewrite method2_skips by done. cbn [obind].
  assert (method3 item (VStr "") = Ok (VStr url)) as ->.
  { unfold method3, cond, js_and. rewrite !get_field by done. rewrite Ht.
    simpl. unfold and_dollar, dollar_url, js_and. simpl.
    rewrite Hd. simpl. by rewrite Hu. }
  cbn [obind].
  by destruct (later_methods_keep item (VStr url) (truthy_VStr url Hne))
    as (_ & _ & ->).
Qed.

Lemma extractMediaUrl_thumbnail_witness :
  extractMediaUrl item_thumbnail = Ok (VStr "https://e.org/t.png").
Proof.
  apply (extractMediaUrl_thumbnail item_thumbnail
           {[ "$" := VObj (attributes [("url", "https://e.org/t.png")]) ]}
           (attributes [("url", "https://e.org/t.png")]));
    try discriminate; vm_compute; reflexivity.
Defined.

(** X3.  An enclosure with flattened attributes counts only when its type
    starts with [image/]: with no other field, the extractor returns its
    URL in that case and the empty string otherwise. *)
Theorem extractMediaUrl_enclosure_gate (item : value)
    (enclosure : gmap string value) (ty url : string) :
  item <> VUndefined -> item <> VNull ->
  truthy (field item "media:content") = false ->
  truthy (field item "media") = false ->
  truthy (field item "media:thumbnail") = false ->
  field item "enclosure" = VObj enclosure ->
  enclosure !! "$" = None ->
  enclosure !! "type" = Some (VStr ty) ->
  enclosure !! "url" = Some (VStr url) ->
  extractMediaUrl item
  = Ok (VStr (if String.prefix "image/" ty then url else "")).
Proof.
  intros H1 H2 Hc Hm Ht He Hd Hty Hu. unfold extractMediaUrl.
  rewrite method1_skips by done. cbn [obind].
  rewrite method2_skips by done. cbn [obind].
  rewrite method3_skips by done. cbn [obind].
  unfold method4, cond, js_and. rewrite !get_field by done. rewrite He.
  simpl. unfold isImageEnclosure, js_and. simpl. rewrite Hd. simpl.
  rewrite Hty. simpl.
  destruct (String.eqb ty "") eqn:Hempty; simpl.
  { apply String.eqb_eq in Hempty as ->. done. }
  destruct (String.prefix "image/" ty); simpl; [|done].
  rewrite Hu. simpl. unfold js_or. simpl.
  destruct (String.eqb url "") eqn:Hurl; simpl; [|done].
  by apply String.eqb_eq in Hurl as ->.
Qed.

Lemma extractMediaUrl_enclosure_gate_witness :
  extractMediaUrl
    (VObj {[ "enclosure" := VObj (attributes [("type", "audio/mpeg");
                                              ("url", "https://e.org/a.mp3")]) ]})
  = Ok (VStr "").
Proof.
  apply (extractMediaUrl_enclosure_gate _
           (attributes [("type", "audio/mpeg"); ("url", "https://e.org/a.mp3")])
           "audio/mpeg" "https://e.org/a.mp3");
    try discriminate; vm_compute; reflexivity.
Defined.

Lemma find_none (pred : value -> outcome value) (arr : list value) :
  Forall (fun e => exists r, pred e = Ok r /\ truthy r = false) arr ->
  find pred arr = Ok VUndefined.
Proof.
  induction 1 as [|e arr (r & Hr & Hf) _ IH]; [done|].
  simpl. rewrite Hr. simpl. by rewrite Hf.
Qed.

(** X4.  When no entry of a [media:content] collection passes the image
    test, the URL of the first entry is taken. *)
Theorem extractMediaUrl_first_entry (item : value)
    (entry attrs : gmap string value) (rest : list value) (url : string) :
  item <> VUndefined -> item <> VNull ->
  field item "media:content" = VArr (VObj entry :: rest) ->
  Forall (fun e => exists r, isImageMedia e = Ok r /\ truthy r = false)
    (VObj entry :: rest) ->
  entry !! "$" = Some (VObj attrs) ->
  attrs !! "url" = Some (VStr url) ->
  url <> "" ->
  extractMediaUrl item = Ok (VStr url).
Proof.
  intros H1 H2 Hc Hnone Hd Hu Hne. unfold extractMediaUrl.
  assert (method1 item (VStr "") = Ok (VStr url)) as ->.
  { unfold method1, cond. rewrite !get_field by done. rewrite Hc.
    cbn [obind truthy]. rewrite (find_none _ _ Hnone). cbn [obind].
    unfold and_dollar, dollar_url, js_and, index. simpl.
    rewrite Hd. simpl. by rewrite Hu. }
  cbn [obind].
  destruct (later_methods_keep item (VStr url) (truthy_VStr url Hne))
    as (-> & H3 & H4).
  cbn [obind]. rewrite H3. cbn [obind]. exact H4.
Qed.

Lemma extractMediaUrl_first_entry_witness :
  extractMediaUrl item_videos = Ok (VStr "https://e.org/v.mp4").
Proof.
  apply (extractMediaUrl_first_entry item_videos
           {[ "$" := VObj (attributes [("type", "video/mp4");
                                       ("url", "https://e.org/v.mp4")]) ]}
           (attributes [("type", "video/mp4"); ("url", "https://e.org/v.mp4")])
           [node [("type", "audio/mpeg"); ("url", "https://e.org/a.mp3")]]);
    try discriminate; try (vm_compute; reflexivity).
  repeat constructor; eexists; (split; [vm_compute; reflexivity|reflexivity]).
Defined.

(** ** Media extractor: where it cannot throw *)

Lemma and_dollar_ok (v : value) : exists r, and_dollar v = Ok r.
Proof.
  unfold and_dollar, js_and. destruct (truthy v) eqn:Hv; [|by eexists].
  rewrite get_truthy by done. by eexists.
Qed.

Lemma dollar_branch_ok (v : value) (e : outcome value) :
  (exists x, e = Ok x) ->
  exists x, cond (and_dollar v) (dollar_url v) e = Ok x.
Proof.
  intros He. unfold cond, and_dollar, dollar_url, js_and.
  destruct (truthy v) eqn:Hv; cbn [obind]; [|by rewrite Hv].
  rewrite get_truthy by done. cbn [obind].
  destruct (truthy (field v "$")) eqn:Hd; [|done].
  rewrite get_truthy by done. by eexists.
Qed.

Lemma flattened_url_ok (v : value) :
  truthy v = true -> exists u, flattened_url v = Ok u.
Proof.
  intros Hv. unfold flattened_url, js_or. rewrite !get_truthy by done.
  cbn [obind]. destruct (truthy (field v "url")); [by eexists|].
  destruct (truthy (field v "@_url")); by eexists.
Qed.

Lemma type_test_ok (d : value) :
  type_is_text d = true ->
  exists r, (ty <- get d "type" ;;
             js_and ty (d' <- Ok d ;; ty' <- get d' "type" ;;
                        call_startsWith ty' "image/"))%js = Ok r.
Proof.
  unfold type_is_text, js_and.
  destruct (get d "type") as [ty|] eqn:Hg; [|done].
  intros Hty. cbn [obind]. rewrite Hg. cbn [obind].
  destruct (truthy ty) eqn:Ht; [|by eexists].
  destruct ty as [| |b|n|s|l|m]; simpl in Ht, Hty; try discriminate.
  by eexists.
Qed.

Lemma type_test_direct (d : value) :
  type_is_text d = true ->
  exists r, (ty <- get d "type" ;;
             js_and ty (call_startsWith ty "image/"))%js = Ok r.
Proof.
  unfold type_is_text, js_and.
  destruct (get d "type") as [ty|] eqn:Hg; [|done].
  intros Hty. cbn [obind].
  destruct (truthy ty) eqn:Ht; [|by eexists].
  destruct ty as [| |b|n|s|l|m]; simpl in Ht, Hty; try discriminate.
  by eexists.
Qed.

Lemma isImageEnclosure_ok (e : value) :
  entry_ok e = true -> exists r, isImageEnclosure e = Ok r.
Proof.
  unfold entry_ok, isImageEnclosure, js_and.
  destruct (get e "$") as [d|]; [|done]. cbn [obind].
  destruct (truthy d) eqn:Hd; [|by eexists]. simpl. intros Hty.
  by apply type_test_ok.
Qed.

Lemma isImageMedia_ok (e : value) :
  entry_ok e = true -> exists r, isImageMedia e = Ok r.
Proof.
  unfold entry_ok, isImageMedia, js_and.
  destruct (get e "$") as [d|]; [|done]. cbn [obind].
  destruct (truthy d) eqn:Hd; [|by eexists]. simpl. intros Hty.
  rewrite get_truthy by done. cbn [obind].
  destruct (strict_eq_str _ _); [by eexists|].
  by apply type_test_ok.
Qed.

Lemma find_ok (pred : value -> outcome value) (arr : list value) :
  forallb entry_ok arr = true ->
  (forall e, entry_ok e = true -> exists r, pred e = Ok r) ->
  exists r, find pred arr = Ok r.
Proof.
  intros Harr Hpred. induction arr as [|e arr IH]; [by eexists|].
  simpl in Harr. apply andb_true_iff in Harr as [He Harr].
  simpl. destruct (Hpred e He) as [r ->]. cbn [obind].
  destruct (truthy r); [by eexists|by apply IH].
Qed.

Lemma method1_ok (item url : value) :
  item <> VUndefined -> item <> VNull ->
  collection_ok (field item "media:content") = true ->
  exists r, method1 item url = Ok r.
Proof.
  intros H1 H2 Hc. unfold method1. unfold cond at 1.
  rewrite !get_field by done. cbn [obind].
  destruct (truthy (field item "media:content")) eqn:Hmc; [|by eexists].
  destruct (field item "media:content") as [| | | | |arr|m] eqn:Hf.
  6:{ destruct (find_ok isImageMedia arr Hc isImageMedia_ok) as [found ->].
      cbn [obind]. apply dollar_branch_ok, dollar_branch_ok. by eexists. }
  all: try discriminate.
  all: apply dollar_branch_ok; cbn [typeof_object].
  all: first [by apply flattened_url_ok | by exists url].
Qed.

Lemma method2_ok (item url : value) :
  item <> VUndefined -> item <> VNull ->
  collection_ok (field (field item "media") "content") = true ->
  exists r, method2 item url = Ok r.
Proof.
  intros H1 H2 Hc. unfold method2. unfold cond at 1. unfold js_and at 1 2.
  rewrite !get_field by done.
  destruct (truthy url); cbn [negb truthy obind]; [by eexists|].
  destruct (truthy (field item "media")) eqn:Hm; cbn [obind].
  2:{ rewrite Hm. by eexists. }
  rewrite get_truthy by done. cbn [obind].
  destruct (truthy (field (field item "media") "content")); [|by eexists].
  destruct (field (field item "media") "content") as [| | | | |arr|m] eqn:Hf.
  6:{ destruct (find_ok isImageMedia arr Hc isImageMedia_ok) as [found ->].
      cbn [obind]. unfold js_or. destruct (truthy found); cbn [obind];
        apply dollar_branch_ok; by eexists. }
  all: apply dollar_branch_ok; by eexists.
Qed.

Lemma method3_ok (item url : value) :
  item <> VUndefined -> item <> VNull ->
  exists r, method3 item url = Ok r.
Proof.
  intros H1 H2. unfold method3. unfold cond at 1. unfold js_and at 1.
  rewrite !get_field by done.
  destruct (truthy url); cbn [negb truthy obind]; [by eexists|].
  destruct (truthy (field item "media:thumbnail")) eqn:Ht; [|by eexists].
  apply dollar_branch_ok.
  destruct (typeof_object _); [by apply flattened_url_ok|by eexists].
Qed.

Lemma method4_ok (item url : value) :
  item <> VUndefined -> item <> VNull ->
  match field item "enclosure" with
  | VArr arr => forallb entry_ok arr
  | enclosure =>
      negb (truthy enclosure) || (entry_ok enclosure && type_is_text enclosure)
  end = true ->
  exists r, method4 item url = Ok r.
Proof.
  intros H1 H2 He. unfold method4. unfold cond at 1. unfold js_and at 1.
  rewrite !get_field by done.
  destruct (truthy url); cbn [negb truthy obind]; [by eexists|].
  destruct (truthy (field item "enclosure")) eqn:Ht; [|by eexists].
  assert (forall enclosure,
            truthy enclosure = true ->
            entry_ok enclosure && type_is_text enclosure = true ->
            exists r,
              cond (isImageEnclosure enclosure) (dollar_url enclosure)
                (if typeof_object enclosure
                 then cond (ty <- get enclosure "type" ;;
                            js_and ty (call_startsWith ty "image/"))
                        (u <- get enclosure "url" ;; js_or u (Ok (VStr "")))
                        (Ok url)
                 else Ok url)%js = Ok r) as Hsingle.
  { intros enclosure Htr [Hentry Htype]%andb_true_iff.
    destruct (isImageEnclosure_ok enclosure Hentry) as [r Hr].
    unfold cond at 1. rewrite Hr. cbn [obind].
    destruct (truthy r) eqn:Hrt.
    - unfold isImageEnclosure, js_and in Hr. unfold dollar_url.
      rewrite get_truthy in * by done. cbn [obind] in *.
      destruct (truthy (field enclosure "$")) eqn:Hd;
        [|injection Hr as <-; congruence].
      rewrite get_truthy by done. by eexists.
    - destruct (typeof_object enclosure); [|by eexists].
      destruct (type_test_direct enclosure Htype) as [c Hc].
      unfold cond. rewrite Hc. cbn [obind].
      destruct (truthy c); [|by eexists].
      rewrite get_truthy by done. cbn [obind]. unfold js_or.
      destruct (truthy (field enclosure "url")); by eexists. }
  destruct (field item "enclosure") as [| | | | |arr|m] eqn:Hf.
  6:{ destruct (find_ok isImageEnclosure arr He isImageEnclosure_ok)
        as [found ->].
      cbn [obind]. apply dollar_branch_ok. by eexists. }
  all: try discriminate.
  all: apply orb_true_iff in He as [Hn|He]; [|by apply Hsingle].
  all: apply negb_true_iff in Hn; simpl in Hn, Ht; congruence.
Qed.

(** X5.  On an item that is not [null] or [undefined], whose collections
    hold no [null] or [undefined] entry and whose [type] attributes are
    strings, the extractor does not throw. *)
Theorem extractMediaUrl_does_not_throw (item : value) :
  item_ok item = true -> exists url, extractMediaUrl item = Ok url.
Proof.
  intros Hok.
  assert (item <> VUndefined /\ item <> VNull) as [H1 H2]
    by (split; intros ->; discriminate).
  assert (collection_ok (field item "media:content") = true
          /\ collection_ok (field (field item "media") "content") = true
          /\ match field item "enclosure" with
             | VArr arr => forallb entry_ok arr
             | enclosure =>
                 negb (truthy enclosure)
                 || (entry_ok enclosure && type_is_text enclosure)
             end = true) as (Hc & Hm & He).
  { destruct item; try done; simpl in Hok;
      by apply andb_true_iff in Hok as [[? ?]%andb_true_iff ?]. }
  unfold extractMediaUrl.
  destruct (method1_ok item (VStr "") H1 H2 Hc) as [u1 ->]. cbn [obind].
  destruct (method2_ok item u1 H1 H2 Hm) as [u2 ->]. cbn [obind].
  destruct (method3_ok item u2 H1 H2) as [u3 ->]. cbn [obind].
  by apply method4_ok.
Qed.

Lemma extractMediaUrl_does_not_throw_witness :
  exists url, extractMediaUrl item_svg_first = Ok url.
Proof. apply extractMediaUrl_does_not_throw. vm_compute. reflexivity. Defined.

(** ** Strings: trimming *)

Lemma trim_start_head (s : string) :
  trim_start s = "" \/ exists c r, trim_start s = String c r /\ is_space c = false.
Proof.
  induction s as [|c s IH]; [by left|].
  simpl. destruct (is_space c) eqn:Hc; [done|]. right. eauto.
Qed.

Lemma trim_end_head (c : ascii) (r : string) :
  is_space c = false -> exists r', trim_end (String c r) = String c r'.
Proof.
  intros Hc. simpl. destruct (trim_end r); [|by eexists].
  rewrite Hc. by eexists.
Qed.

Lemma trim_end_idem (s : string) : trim_end (trim_end s) = trim_end s.
Proof.
  induction s as [|c s IH]; [done|].
  simpl. destruct (trim_end s) as [|d t] eqn:Ht.
  - destruct (is_space c) eqn:Hc; [done|]. simpl. by rewrite Hc.
  - change (trim_end (String c (String d t))) with
      (match trim_end (String d t) with
       | EmptyString => if is_space c then EmptyString else String c EmptyString
       | t' => String c t'
       end).
    by rewrite IH.
Qed.

(** Trimming a trimmed text changes nothing. *)
Lemma trim_idem (s : string) : trim (trim s) = trim s.
Proof.
  unfold trim.
  destruct (trim_start_head s) as [->|(c & r & -> & Hc)]; [done|].
  destruct (trim_end_head c r Hc) as [r' Hr]. rewrite Hr.
  simpl trim_start. rewrite Hc. rewrite <- Hr. apply trim_end_idem.
Qed.

(** ** Summarizer: what it returns *)

Section SummarizerMore.

Variable env : Env.

Lemma summary_of_trimmed (data summary : value) :
  summary_of data = Ok summary ->
  summary = VUndefined \/ exists c, summary = VStr (trim c).
Proof.
  unfold summary_of. destruct (message_content data) as [c|]; [|done].
  destruct c; simpl; intros [= <-]; eauto.
Qed.

Lemma summarizeContent_profile (articleText : value) (d : nat) :
  forall (retryCount : nat) (w : World),
    retryCount + d = 4 ->
    exists (v : value) (w' : World) (t : list event),
      summarizeContent env articleText retryCount w = (Ok v, w')
      /\ trace w' = trace w ++ t
      /\ same_tables w w'
      /\ Forall (fun e => is_summarizer_event e = true) t
      /\ length (prompts t) <= S d
      /\ (v = VNull \/ v = VUndefined \/ exists c, v = VStr (trim c)).
Proof.
  induction d as [d IH] using lt_wf_ind. intros retryCount w Hd.
  rewrite summarizeContent_step. cbv zeta.
  destruct (reply env _ _) as [summary|msg] eqn:Hreply.
  - destruct (tooShort summary && Nat.ltb retryCount 4) eqn:Hretry.
    + apply andb_true_iff in Hretry as [_ Hlt%Nat.ltb_lt].
      destruct d as [|d']; [lia|].
      set (w2 := log (EvLog _) (log (EvOpenRouter _) w)).
      destruct (IH d' ltac:(lia) (retryCount + 1) w2 ltac:(lia))
        as (v & w' & t & Hrun & Ht & Htab & Hev & Hlen & Hv).
      exists v, w', ([EvOpenRouter (prompt_for articleText retryCount);
                      EvLog (LogSummaryTooShort
                               match summary with
                               | VStr s => length (split_ws s)
                               | _ => 0
                               end)] ++ t).
      split; [exact Hrun|].
      split. { rewrite Ht. subst w2. simpl. by rewrite <- !app_assoc. }
      split. { eapply same_tables_trans; [|exact Htab]. done. }
      split; [by repeat constructor|].
      split; [|done]. rewrite prompts_app, length_app. simpl. lia.
    + eexists _, _, [_]. split; [done|]. split; [done|]. split; [done|].
      split; [by repeat constructor|]. split; [simpl; lia|].
      unfold reply in Hreply. destruct (fault env _); [done|].
      right. by apply summary_of_trimmed in Hreply.
  - eexists _, _, [_; _]. split; [done|]. split.
    { simpl. by rewrite <- app_assoc. }
    split; [done|]. split; [by repeat constructor|]. split; [simpl; lia|auto].
Qed.

(** X6.  A text returned by the summarizer is trimmed: trimming it again
    changes nothing. *)
Theorem summarizeContent_returns_trimmed (articleText : value) (w w' : World)
    (s : string) :
  summarizeContent env articleText 0 w = (Ok (VStr s), w') -> trim s = s.
Proof.
  intros Hrun.
  destruct (summarizeContent_profile articleText 4 0 w eq_refl)
    as (v & w1 & t & Hrun' & _ & _ & _ & _ & Hv).
  rewrite Hrun in Hrun'. injection Hrun' as <- _.
  destruct Hv as [?|[?|[c [= ->]]]]; try discriminate. apply trim_idem.
Qed.

(** X7.  A response without a body, or whose message content is neither
    missing nor a string, counts as an error: the summarizer reports it and
    returns [null] after this single call. *)
Theorem summarizeContent_malformed_response (articleText : value)
    (retryCount : nat) (w : World) :
  let k := length (trace w) in
  let prompt := prompt_for articleText retryCount in
  let data := openrouter_data env k prompt in
  fault env k = None ->
  data = VUndefined \/ data = VNull
  \/ (exists content,
        message_content data = Ok content
        /\ match content with
           | VUndefined | VNull | VStr _ => False
           | _ => True
           end) ->
  exists msg,
    summarizeContent env articleText retryCount w
    = (Ok VNull,
       log (EvLog (LogSummarizationError msg)) (log (EvOpenRouter prompt) w)).
Proof.
  intros k prompt data Hfault Hbad.
  assert (exists msg, reply env k prompt = Throw msg) as [msg Hreply].
  { unfold reply. rewrite Hfault. fold data. unfold summary_of.
    destruct Hbad as [->|[->|(content & -> & Hc)]]; try by eexists.
    destruct content; try done; by eexists. }
  exists msg. rewrite summarizeContent_step. cbv zeta.
  fold k prompt. by rewrite Hreply.
Qed.

End SummarizerMore.

Lemma summarizeContent_returns_trimmed_witness :
  trim (words 60) = words 60.
Proof.
  apply (summarizeContent_returns_trimmed sixty_words (VStr "text")
           empty_world
           (log (EvOpenRouter (Primary (VStr "text"))) empty_world)).
  vm_compute. reflexivity.
Defined.

Lemma summarizeContent_malformed_response_witness :
  exists msg,
    summarizeContent (calm (fun _ => VNum 7)) (VStr "text") 0 empty_world
    = (Ok VNull,
       log (EvLog (LogSummarizationError msg))
         (log (EvOpenRouter (Primary (VStr "text"))) empty_world)).
Proof.
  apply (summarizeContent_malformed_response (calm (fun _ => VNum 7))
           (VStr "text") 0 empty_world); [reflexivity|].
  right. right. exists (VNum 7). split; [vm_compute; reflexivity|exact I].
Defined.

(** ** Per-candidate pipeline: budget and stored rows *)

Section PipelineMore.

Variable env : Env.

Lemma summarizer_events_counts (t : list event) :
  Forall (fun e => is_summarizer_event e = true) t -> extractions t = 0.
Proof.
  induction 1 as [|e t He _ IH]; [done|].
  destruct e as [[]| | | | | | | | | |]; try discriminate; exact IH.
Qed.

Lemma profile_skip (newsItem : Candidate) (w w1 : World) (t0 : list event)
    (line : LogLine) :
  trace w1 = trace w ++ EvSelectBlog (link newsItem) :: t0 ->
  same_tables w w1 ->
  Forall (fun e => is_front_event e = true) t0 ->
  extractions t0 <= 1 ->
  length (prompts t0) <= 5 ->
  is_skip_line line = true ->
  attempt_profile env newsItem w (Ok VNull, log (EvLog line) w1).
Proof. intros. exists t0, w1. eauto 10. Qed.

Lemma processNews_profile (newsItem : Candidate) (w : World) :
  attempt_profile env newsItem w (processNews env newsItem w).
Proof.
  unfold processNews.
  set (h := fun msg : string => (say (LogProcessingError msg) ;;; ret VNull)%run).
  assert (forall msg w', h msg w'
            = (Ok VNull, log (EvLog (LogProcessingError msg)) w')) as Hh by done.
  clearbody h.
  rewrite try_catch_bind. unfold isNewsProcessed, external.
  set (w1 := log (EvSelectBlog (link newsItem)) w).
  assert (trace w1 = trace w ++ EvSelectBlog (link newsItem) :: []) as Ht1 by done.
  assert (same_tables w w1) as Hs1 by done.
  assert (Forall (fun e => is_front_event e = true) []) as Hf1 by done.
  assert (extractions [] <= 1) as He1 by (unfold extractions; simpl; lia).
  assert (length (prompts []) <= 5) as Hp1 by (simpl; lia).
  destruct (fault env (length (trace w))) as [msg|].
  { rewrite Hh. by eapply profile_skip. }
  destruct (Nat.ltb 0 _).
  { by eapply profile_skip. }
  rewrite try_catch_bind.
  destruct (isNewsFromToday_pure env (pubDate newsItem) w1) as [fresh ->].
  destruct fresh; cbn [negb]; [|by eapply profile_skip].
  rewrite try_catch_bind. cbn [say].
  rewrite try_catch_bind. unfold diffbot, external.
  set (w2 := log (EvLog (LogProcessing (link newsItem))) w1).
  set (w3 := log (EvDiffbot (link newsItem)) w2).
  set (t3 := [EvLog (LogProcessing (link newsItem)); EvDiffbot (link newsItem)]).
  assert (trace w3 = trace w ++ EvSelectBlog (link newsItem) :: t3) as Ht3.
  { simpl. by rewrite <- !app_assoc. }
  assert (Forall (fun e => is_front_event e = true) t3) as Hf3
    by (by repeat constructor).
  assert (extractions t3 <= 1) as He3 by (unfold extractions; simpl; lia).
  assert (length (prompts t3) <= 5) as Hp3 by (simpl; lia).
  assert (same_tables w w3) as Hs3 by done.
  destruct (fault env (length (trace w2))) as [msg|].
  { rewrite Hh. by eapply profile_skip. }
  rewrite try_catch_bind. unfold lift at 1.
  destruct (objects <- get _ "objects" ;; index_opt objects 0)%js
    as [article0|msg].
  2:{ rewrite Hh. by eapply profile_skip. }
  rewrite try_catch_bind. unfold lift at 1.
  destruct (if truthy article0 then _ else _) as [noText|msg].
  2:{ rewrite Hh. by eapply profile_skip. }
  destruct noText; [by eapply profile_skip|].
  rewrite try_catch_bind. unfold lift at 1.
  destruct (get article0 "text") as [text|msg].
  2:{ rewrite Hh. by eapply profile_skip. }
  rewrite try_catch_bind.
  destruct (summarizeContent_profile env text 4 0 w3 eq_refl)
    as (summary & w4 & ts & -> & Ht4 & Hs4 & Hf4 & Hp4 & Hv).
  assert (trace w4 = trace w ++ EvSelectBlog (link newsItem) :: (t3 ++ ts))
    as Ht4'.
  { rewrite Ht4, Ht3. by rewrite <- !app_assoc. }
  assert (Forall (fun e => is_front_event e = true) (t3 ++ ts)) as Hf4'.
  { apply Forall_app. split; [done|].
    eapply Forall_impl; [exact Hf4|].
    by intros [[]| | | | | | | | | |]. }
  assert (extractions (t3 ++ ts) <= 1) as He4.
  { unfold extractions. rewrite List.filter_app, length_app.
    fold (extractions ts). rewrite (summarizer_events_counts ts Hf4).
    simpl. lia. }
  assert (length (prompts (t3 ++ ts)) <= 5) as Hp4'.
  { rewrite prompts_app, length_app. simpl. lia. }
  assert (same_tables w w4) as Hs4' by (by eapply same_tables_trans).
  rewrite try_catch_bind. unfold lift at 1.
  destruct (if truthy summary then _ else _) as [short|msg] eqn:Hshort.
  2:{ rewrite Hh. by eapply profile_skip. }
  destruct short; [by eapply profile_skip|].
  rewrite (persistence_stage env newsItem summary h w4 Hh).
  exists (t3 ++ ts), w4. do 5 (split; [done|]). right.
  destruct Hv as [->|[->|[c ->]]]; try discriminate.
  exists (trim c). split; [|done].
  destruct (truthy (VStr (trim c))) eqn:Htr; [|discriminate].
  simpl in Hshort. injection Hshort as Hlen.
  apply Nat.ltb_ge in Hlen. simpl in Htr.
  apply negb_true_iff, String.eqb_neq in Htr.
  repeat split; [done|done|apply trim_idem].
Qed.

End PipelineMore.

(** The persistence stage makes no paid call and writes at most one row
    into each table. *)
Lemma persistence_facts (env : Env) (newsItem : Candidate) (summary : value)
    (w : World) :
  exists (r : outcome value) (w' : World) (tail : list event),
    persistence env newsItem summary w = (r, w')
    /\ trace w' = trace w ++ tail
    /\ extractions tail = 0
    /\ prompts tail = []
    /\ parsed tail = []
    /\ rss_feeds w' = rss_feeds w
    /\ ((r = Ok VNull /\ blogs w' = blogs w
         /\ blog_categories w' = blog_categories w
         /\ auto_increment w' = auto_increment w)
        \/ (blogs w' = blogs w ++ [blogRow newsItem summary (auto_increment w)]
            /\ auto_increment w' = (auto_increment w + 1)%Z
            /\ (blog_categories w' = blog_categories w
                \/ blog_categories w'
                   = blog_categories w
                     ++ [categoryRow newsItem (VNum (auto_increment w))])
            /\ (r = Ok VNull \/ r = Ok (VNum (auto_increment w))))).
Proof.
  unfold persistence.
  destruct (fault env (length (trace w))) as [msg|].
  { eexists _, _, [_; _]. split; [done|]. split.
    { simpl. by rewrite <- app_assoc. }
    do 4 (split; [done|]). left. done. }
  destruct (truthy _ && truthy _).
  - destruct (fault env (S (length (trace w)))) as [msg|].
    + eexists _, _, [_; _; _]. split; [done|]. split.
      { simpl. by rewrite <- !app_assoc. }
      do 4 (split; [done|]). right. simpl. auto.
    + eexists _, _, [_; _; _]. split; [done|]. split.
      { simpl. by rewrite <- !app_assoc. }
      do 4 (split; [done|]). right. simpl. auto.
  - eexists _, _, [_; _]. split; [done|]. split.
    { simpl. by rewrite <- !app_assoc. }
    do 4 (split; [done|]). right. simpl. auto.
Qed.

(** X8.  One attempt starts with the look-up in [blogs] and calls the
    extraction service at most once and the summarization service at most
    five times. *)
Theorem processNews_paid_calls (env : Env) (newsItem : Candidate) (w : World) :
  exists (r : outcome value) (w' : World) (t : list event),
    processNews env newsItem w = (r, w')
    /\ trace w' = trace w ++ EvSelectBlog (link newsItem) :: t
    /\ extractions t <= 1
    /\ length (prompts t) <= 5.
Proof.
  destruct (processNews_profile env newsItem w)
    as (t0 & w1 & Ht & _ & _ & He & Hp & [(line & _ & ->)|(s & _ & ->)]).
  - eexists _, _, (t0 ++ [EvLog line]). split; [done|].
    split. { simpl. rewrite Ht. by rewrite <- app_assoc. }
    unfold extractions. rewrite List.filter_app, prompts_app, !length_app.
    fold (extractions t0). simpl. lia.
  - destruct (persistence_facts env newsItem (VStr s) w1)
      as (r & w' & tail & -> & Htail & Het & Hpt & _ & _).
    exists r, w', (t0 ++ tail). split; [done|].
    split. { rewrite Htail, Ht. by rewrite <- app_assoc. }
    unfold extractions. rewrite List.filter_app, prompts_app, !length_app.
    fold (extractions t0) (extractions tail). rewrite Het, Hpt. simpl. lia.
Qed.

(** X9.  One attempt leaves [rss_feeds] alone and either writes nothing
    and returns [null], or appends to [blogs] one post for the candidate,
    with the next id and a trimmed summary of at least 50 words, and at
    most one link for that id to [blog_categories]; a result other than
    [null] is the id of the post written. *)
Theorem processNews_writes (env : Env) (newsItem : Candidate) (w : World) :
  exists (r : outcome value) (w' : World),
    processNews env newsItem w = (r, w')
    /\ rss_feeds w' = rss_feeds w
    /\ ((r = Ok VNull /\ blogs w' = blogs w
         /\ blog_categories w' = blog_categories w
         /\ auto_increment w' = auto_increment w)
        \/ (exists s,
              long_enough s
              /\ blogs w' = blogs w ++ [blogRow newsItem (VStr s) (auto_increment w)]
              /\ auto_increment w' = (auto_increment w + 1)%Z
              /\ (blog_categories w' = blog_categories w
                  \/ blog_categories w'
                     = blog_categories w
                       ++ [categoryRow newsItem (VNum (auto_increment w))])
              /\ (r = Ok VNull \/ r = Ok (VNum (auto_increment w))))).
Proof.
  destruct (processNews_profile env newsItem w)
    as (t0 & w1 & _ & (Hf & Hb & Hc & Ha) & _ & _ & _
        & [(line & _ & ->)|(s & Hs & ->)]).
  - eexists _, _. split; [done|]. split; [done|]. left. done.
  - destruct (persistence_facts env newsItem (VStr s) w1)
      as (r & w' & tail & -> & _ & _ & _ & _ & Hf' & Hcases).
    exists r, w'. split; [done|]. split; [congruence|].
    rewrite Hb, Hc, Ha in Hcases.
    destruct Hcases as [?|?]; [by left|]. right. by exists s.
Qed.

(** X10.  A candidate that is not of today is rejected with [null] after
    the look-up in [blogs] and one console line: no paid call is made and
    nothing is written. *)
Theorem processNews_not_today (env : Env) (newsItem : Candidate) (w : World) :
  not_of_today env (S (length (trace w))) (pubDate newsItem) ->
  exists (line : LogLine) (w' : World),
    processNews env newsItem w = (Ok VNull, w')
    /\ trace w' = trace w ++ [EvSelectBlog (link newsItem); EvLog line]
    /\ is_skip_line line = true
    /\ same_tables w w'.
Proof.
  intros Hold.
  assert (isNewsFromToday env (pubDate newsItem)
            (log (EvSelectBlog (link newsItem)) w)
          = (Ok false, log (EvSelectBlog (link newsItem)) w)) as Hfresh.
  { unfold isNewsFromToday. rewrite length_log.
    destruct Hold as [->|[->|(d & -> & ->)]]; [done| |].
    - by destruct (negb _).
    - by destruct (negb _). }
  unfold processNews. rewrite try_catch_bind.
  unfold isNewsProcessed, external.
  destruct (fault env (length (trace w))) as [msg|].
  { eexists _, _. split; [done|].
    split; [simpl; by rewrite <- app_assoc|done]. }
  destruct (Nat.ltb 0 _).
  { eexists _, _. split; [done|].
    split; [simpl; by rewrite <- app_assoc|done]. }
  rewrite try_catch_bind, Hfresh. cbn [negb].
  eexists _, _. split; [done|].
  split; [simpl; by rewrite <- app_assoc|done].
Qed.

Lemma processNews_not_today_witness :
  exists (line : LogLine) (w' : World),
    processNews sixty_words stale_candidate empty_world = (Ok VNull, w')
    /\ trace w' = trace empty_world
                  ++ [EvSelectBlog (link stale_candidate); EvLog line]
    /\ is_skip_line line = true
    /\ same_tables empty_world w'.
Proof.
  apply (processNews_not_today sixty_words stale_candidate empty_world).
  left. reflexivity.
Defined.

Local Ltac leaf :=
  eexists _, _; split; [done|];
  split; [simpl; by rewrite <- ?app_assoc|];
  split; [unfold extractions; simpl; lia|done].

(** X11.  When the extraction service never names an article text, an
    attempt returns [null], calls the extraction service at most once and
    the summarization service not at all, and writes nothing. *)
Theorem processNews_without_text (env : Env) (newsItem : Candidate)
    (w : World) :
  (forall k url, no_article_text (diffbot_data env k url)) ->
  exists (w' : World) (t : list event),
    processNews env newsItem w = (Ok VNull, w')
    /\ trace w' = trace w ++ t
    /\ extractions t <= 1
    /\ prompts t = []
    /\ same_tables w w'.
Proof.
  intros Hnone. unfold processNews.
  set (h := fun msg : string => (say (LogProcessingError msg) ;;; ret VNull)%run).
  rewrite try_catch_bind. unfold isNewsProcessed, external.
  destruct (fault env (length (trace w))) as [msg|].
  { leaf. }
  destruct (Nat.ltb 0 _).
  { leaf. }
  rewrite try_catch_bind.
  destruct (isNewsFromToday_pure env (pubDate newsItem)
              (log (EvSelectBlog (link newsItem)) w)) as [fresh ->].
  destruct fresh; cbn [negb].
  2:{ leaf. }
  rewrite try_catch_bind. cbn [say].
  rewrite try_catch_bind. unfold diffbot, external.
  destruct (fault env _) as [msg|].
  { leaf. }
  rewrite try_catch_bind. unfold lift at 1.
  specialize (Hnone (length (trace (log (EvLog (LogProcessing (link newsItem)))
                                      (log (EvSelectBlog (link newsItem)) w))))
                (link newsItem)).
  unfold no_article_text in Hnone.
  destruct (objects <- get _ "objects" ;; index_opt objects 0)%js
    as [article0|msg].
  2:{ leaf. }
  specialize (Hnone article0 eq_refl).
  rewrite try_catch_bind. unfold lift at 1.
  assert ((if truthy article0
           then (text <- get article0 "text" ;; Ok (negb (truthy text)))%js
           else Ok true) = Ok true) as ->.
  { destruct (truthy article0) eqn:Ha; [|done].
    rewrite get_truthy by done. cbn [obind]. by rewrite Hnone. }
  leaf.
Qed.

Lemma processNews_without_text_witness :
  exists (w' : World) (t : list event),
    processNews (without_articles sixty_words)
      (candidate "https://e.org/a") empty_world = (Ok VNull, w')
    /\ trace w' = trace empty_world ++ t
    /\ extractions t <= 1
    /\ prompts t = []
    /\ same_tables empty_world w'.
Proof.
  apply (processNews_without_text (without_articles sixty_words)).
  intros k url article Harticle Htruthy. vm_compute in Harticle.
  injection Harticle as <-. discriminate.
Defined.

(** X12.  The whole pipeline for one candidate: when its link is in no row
    of [blogs], it is of today, the extraction names a text, the first
    summary has at least 50 words once trimmed, the candidate has a
    category and no call rejects, the attempt makes one extraction and one
    summarization call, stores one post with that summary under the next
    id, links it to the category, and returns the id. *)
Theorem processNews_stores_post (env : Env) (newsItem : Candidate) (w : World)
    (newsDate : Day) (article0 text : value) (s : string) :
  let k := length (trace w) in
  fault env k = None ->
  Forall (fun row => sql_eq (blog_source_link row) (link newsItem) = false)
    (blogs w) ->
  truthy (pubDate newsItem) = true ->
  date_of env (pubDate newsItem) = Some newsDate ->
  same_day newsDate (today env (k + 1)) = true ->
  fault env (k + 2) = None ->
  (objects <- get (diffbot_data env (k + 2) (link newsItem)) "objects" ;;
   index_opt objects 0)%js = Ok article0 ->
  truthy article0 = true ->
  field article0 "text" = text ->
  truthy text = true ->
  fault env (k + 3) = None ->
  summary_of (openrouter_data env (k + 3) (Primary text)) = Ok (VStr s) ->
  50 <= length (split_ws s) ->
  fault env (k + 4) = None ->
  fault env (k + 5) = None ->
  auto_increment w <> 0%Z ->
  truthy (categoryId newsItem) = true ->
  exists w',
    processNews env newsItem w = (Ok (VNum (auto_increment w)), w')
    /\ trace w'
       = trace w
         ++ [EvSelectBlog (link newsItem);
             EvLog (LogProcessing (link newsItem));
             EvDiffbot (link newsItem);
             EvOpenRouter (Primary text);
             EvInsertBlog (blogRow newsItem (VStr s) (auto_increment w));
             EvInsertCategory (categoryRow newsItem (VNum (auto_increment w)));
             EvLog (LogInserted (title newsItem) (VNum (auto_increment w))
                      (categoryId newsItem))]
    /\ blogs w' = blogs w ++ [blogRow newsItem (VStr s) (auto_increment w)]
    /\ blog_categories w'
       = blog_categories w
         ++ [categoryRow newsItem (VNum (auto_increment w))]
    /\ auto_increment w' = (auto_increment w + 1)%Z.
Proof.
  intros k Hselect Hnew Hdate Hparse Hday Hdiffbot Harticle Htruthy Htext
    Htt Hopen Hsummary Hlong Hblog Hcat Hid Hcategory.
  unfold processNews.
  set (h := fun msg : string => (say (LogProcessingError msg) ;;; ret VNull)%run).
  assert (forall msg w', h msg w'
            = (Ok VNull, log (EvLog (LogProcessingError msg)) w')) as Hh by done.
  clearbody h.
  rewrite try_catch_bind. unfold isNewsProcessed, external.
  fold k. rewrite Hselect.
  set (w1 := log (EvSelectBlog (link newsItem)) w).
  assert (filter (fun r => sql_eq (blog_source_link r) (link newsItem) = true)
            (blogs w1) = []) as ->.
  { change (blogs w1) with (blogs w). clear -Hnew.
    induction Hnew as [|row rows Hrow _ IH]; [done|].
    rewrite filter_cons_False; [exact IH|]. by rewrite Hrow. }
  cbn [length Nat.ltb Nat.leb].
  rewrite try_catch_bind. unfold isNewsFromToday. rewrite Hdate, Hparse.
  cbn [negb]. subst w1. rewrite length_log. fold k.
  replace (S k) with (k + 1) by lia. rewrite Hday. cbn [negb].
  rewrite try_catch_bind. cbn [say].
  rewrite try_catch_bind. unfold diffbot, external. rewrite !length_log.
  fold k. replace (S (S k)) with (k + 2) by lia. rewrite Hdiffbot.
  rewrite try_catch_bind. unfold lift at 1. rewrite Harticle.
  rewrite try_catch_bind. unfold lift at 1. rewrite Htruthy.
  rewrite get_truthy by done. cbn [obind]. rewrite Htext, Htt. cbn [negb].
  rewrite try_catch_bind. unfold lift at 1. cbn [obind].
  rewrite try_catch_bind.
  set (w3 := log (EvDiffbot _) _).
  assert (length (trace w3) = k + 3) as Hlen3.
  { subst w3. rewrite !length_log. fold k. lia. }
  assert (s <> "") as Hne.
  { intros ->. simpl in Hlong. lia. }
  rewrite summarizeContent_step. cbv zeta. unfold reply.
  rewrite Hlen3, Hopen. cbn [prompt_for Nat.eqb]. rewrite Hsummary.
  assert (tooShort (VStr s) = false) as ->.
  { simpl. apply andb_false_iff. right. by apply Nat.ltb_ge. }
  cbn [andb].
  rewrite try_catch_bind. unfold lift at 1.
  rewrite (truthy_VStr s Hne). cbn [call_split obind].
  assert (Nat.leb (length (split_ws s)) 49 = false) as ->
    by (apply Nat.leb_gt; lia).
  rewrite (persistence_stage env newsItem (VStr s) h _ Hh).
  unfold persistence. rewrite !length_log, Hlen3.
  replace (S (k + 3)) with (k + 4) by lia.
  replace (S (k + 4)) with (k + 5) by lia.
  rewrite Hblog, Hcat.
  assert (truthy (VNum (auto_increment w)) = true) as Hidt.
  { simpl. apply negb_true_iff. by apply Z.eqb_neq. }
  subst w3. cbn [auto_increment log]. rewrite Hidt, Hcategory. cbn [andb].
  eexists. split; [reflexivity|]. split; [|done].
  simpl. by rewrite <- !app_assoc.
Qed.

Lemma processNews_stores_post_witness :
  exists w',
    processNews sixty_words (candidate "https://e.org/a") empty_world
    = (Ok (VNum 1), w')
    /\ blogs w' = [blogRow (candidate "https://e.org/a") (VStr (words 60)) 1]
    /\ blog_categories w' = [categoryRow (candidate "https://e.org/a") (VNum 1)].
Proof.
  destruct (processNews_stores_post sixty_words (candidate "https://e.org/a")
              empty_world new_year
              (VObj {[ "text" := VStr "Full text of the article." ]})
              (VStr "Full text of the article.") (words 60))
    as (w' & Hrun & _ & Hblogs & Hcats & _);
    try reflexivity; try discriminate.
  - constructor.
  - vm_compute. lia.
  - exists w'. auto.
Defined.

(** ** What attempts, the loop and the run write *)

Lemma front_events_not_parsed (t0 : list event) :
  Forall (fun e => is_front_event e = true) t0 -> parsed t0 = [].
Proof.
  induction 1 as [|e t0 He _ IH]; [done|].
  destruct e as [[]| | | | | | | | | |]; try discriminate; exact IH.
Qed.

Lemma parsed_app (t1 t2 : list event) :
  parsed (t1 ++ t2) = parsed t1 ++ parsed t2.
Proof. apply omap_app. Qed.

(** The effects of one attempt on the tables, and its events. *)
Lemma processNews_effects (env : Env) (newsItem : Candidate) (w : World) :
  exists (v : value) (w' : World) (t : list event),
    processNews env newsItem w = (Ok v, w')
    /\ trace w' = trace w ++ t
    /\ parsed t = []
    /\ rss_feeds w' = rss_feeds w
    /\ ((v = VNull /\ blogs w' = blogs w
         /\ blog_categories w' = blog_categories w
         /\ auto_increment w' = auto_increment w)
        \/ (exists s,
              long_enough s
              /\ blogs w' = blogs w ++ [blogRow newsItem (VStr s) (auto_increment w)]
              /\ auto_increment w' = (auto_increment w + 1)%Z
              /\ (blog_categories w' = blog_categories w
                  \/ blog_categories w'
                     = blog_categories w
                       ++ [categoryRow newsItem (VNum (auto_increment w))])
              /\ (v = VNull \/ v = VNum (auto_increment w)))).
Proof.
  destruct (processNews_profile env newsItem w)
    as (t0 & w1 & Ht & (Hf & Hb & Hc & Ha) & Hfront & _ & _
        & [(line & _ & ->)|(s & Hs & ->)]).
  - exists VNull, (log (EvLog line) w1),
      (EvSelectBlog (link newsItem) :: t0 ++ [EvLog line]).
    split; [done|].
    split. { simpl. rewrite Ht. by rewrite <- app_assoc. }
    split. { change (parsed (t0 ++ [EvLog line]) = []).
             by rewrite parsed_app, front_events_not_parsed. }
    split; [done|]. left. done.
  - destruct (persistence_facts env newsItem (VStr s) w1)
      as (r & w' & tail & Hrun & Htail & _ & _ & Hpt & Hf' & Hcases).
    rewrite Hb, Hc, Ha in Hcases.
    assert (exists v, r = Ok v
              /\ ((v = VNull /\ blogs w' = blogs w
                   /\ blog_categories w' = blog_categories w
                   /\ auto_increment w' = auto_increment w)
                  \/ (exists s,
                        long_enough s
                        /\ blogs w'
                           = blogs w ++ [blogRow newsItem (VStr s) (auto_increment w)]
                        /\ auto_increment w' = (auto_increment w + 1)%Z
                        /\ (blog_categories w' = blog_categories w
                            \/ blog_categories w'
                               = blog_categories w
                                 ++ [categoryRow newsItem (VNum (auto_increment w))])
                        /\ (v = VNull \/ v = VNum (auto_increment w)))))
      as (v & -> & Hv).
    { destruct Hcases as [(-> & ? & ? & ?)|(? & ? & ? & [->| ->])].
      - exists VNull. split; [done|]. left. auto.
      - exists VNull. split; [done|]. right. exists s. auto 10.
      - eexists. split; [done|]. right. exists s. auto 10. }
    exists v, w', (EvSelectBlog (link newsItem) :: t0 ++ tail).
    split; [done|].
    split. { rewrite Htail, Ht. by rewrite <- app_assoc. }
    split. { change (parsed (t0 ++ tail) = []).
             by rewrite parsed_app, front_events_not_parsed, Hpt. }
    split; [congruence|done].
Qed.

(** A candidate whose link is in [blogs] is skipped. *)
Lemma stored_link_skipped (env : Env) (newsItem : Candidate) (w : World) :
  (exists row, In row (blogs w)
               /\ sql_eq (blog_source_link row) (link newsItem) = true) ->
  exists (line : LogLine) (w' : World),
    processNews env newsItem w = (Ok VNull, w')
    /\ trace w' = trace w ++ [EvSelectBlog (link newsItem); EvLog line]
    /\ same_tables w w'.
Proof.
  intros (row & Hrow & Hsrc).
  unfold processNews. rewrite try_catch_bind.
  unfold isNewsProcessed, external.
  destruct (fault env (length (trace w))) as [msg|].
  - eexists _, _. split; [done|]. split; [|done].
    simpl. by rewrite <- app_assoc.
  - assert (Nat.ltb 0 (length (filter
              (fun r => sql_eq (blog_source_link r) (link newsItem) = true)
              (blogs (log (EvSelectBlog (link newsItem)) w)))) = true) as ->.
    { apply Nat.ltb_lt. simpl.
      assert (row ∈ filter
                (fun r => sql_eq (blog_source_link r) (link newsItem) = true)
                (blogs w)) as Hin.
      { apply list_elem_of_filter. split; [done|by apply list_elem_of_In]. }
      destruct (filter _ (blogs w)); [by apply elem_of_nil in Hin|simpl; lia]. }
    eexists _, _. split; [done|]. split; [|done].
    simpl. by rewrite <- app_assoc.
Qed.

(** X13.  Once an attempt has stored a post for a candidate with a string
    link, every later attempt on a candidate with that link, in any world
    that still holds the rows, is skipped after the look-up: it makes no
    paid call and writes nothing.  That holds also when the category link
    of the first attempt failed. *)
Theorem processNews_at_most_once (env : Env) (newsItem : Candidate)
    (w w' : World) (r : outcome value) (l : string) :
  processNews env newsItem w = (r, w') ->
  link newsItem = VStr l ->
  blogs w' <> blogs w ->
  forall (env2 : Env) (newsItem2 : Candidate) (w2 : World),
    link newsItem2 = VStr l ->
    (forall row, In row (blogs w') -> In row (blogs w2)) ->
    exists (line : LogLine) (w2' : World),
      processNews env2 newsItem2 w2 = (Ok VNull, w2')
      /\ trace w2' = trace w2 ++ [EvSelectBlog (VStr l); EvLog line]
      /\ same_tables w2 w2'.
Proof.
  intros Hrun Hlink Hgrew env2 newsItem2 w2 Hlink2 Hkept.
  destruct (processNews_effects env newsItem w)
    as (v & w1 & t & Hrun' & _ & _ & _ & Hcases).
  rewrite Hrun in Hrun'. injection Hrun' as -> <-.
  destruct Hcases as [(_ & Hsame & _)|(s & _ & Hblogs & _)]; [done|].
  rewrite <- Hlink2. apply stored_link_skipped.
  exists (blogRow newsItem (VStr s) (auto_increment w)). split.
  - apply Hkept. rewrite Hblogs. apply in_or_app. right. by left.
  - simpl. rewrite Hlink, Hlink2. simpl. apply String.eqb_refl.
Qed.

Lemma processNews_at_most_once_witness :
  exists (line : LogLine) (w2' : World),
    processNews sixty_words (candidate "https://e.org/a")
      (snd (processNews sixty_words (candidate "https://e.org/a") empty_world))
    = (Ok VNull, w2')
    /\ trace w2'
       = trace (snd (processNews sixty_words (candidate "https://e.org/a")
                       empty_world))
         ++ [EvSelectBlog (VStr "https://e.org/a"); EvLog line]
    /\ same_tables
         (snd (processNews sixty_words (candidate "https://e.org/a")
                 empty_world)) w2'.
Proof.
  apply (processNews_at_most_once sixty_words (candidate "https://e.org/a")
           empty_world
           (snd (processNews sixty_words (candidate "https://e.org/a")
                   empty_world))
           (fst (processNews sixty_words (candidate "https://e.org/a")
                   empty_world))
           "https://e.org/a").
  - apply surjective_pairing.
  - reflexivity.
  - vm_compute. discriminate.
  - reflexivity.
  - auto.
Defined.

(** What the loop writes, from any index on. *)
Lemma walk_effects (env : Env) (cap : nat) (rest : list Candidate) :
  forall (processedCount : nat) (w : World),
    exists (count : nat) (w' : World) (t : list event) (rows : list BlogRow)
           (links : list CategoryRow),
      walk env cap rest processedCount w = (Ok count, w')
      /\ trace w' = trace w ++ t
      /\ parsed t = []
      /\ rss_feeds w' = rss_feeds w
      /\ blogs w' = blogs w ++ rows
      /\ blog_categories w' = blog_categories w ++ links
      /\ Forall (fun row => exists newsItem,
                   In newsItem rest /\ post_of newsItem row) rows
      /\ Forall (fun link => exists newsItem row,
                   In newsItem rest /\ In row rows /\ post_of newsItem row
                   /\ link = categoryRow newsItem (VNum (blog_id row))) links
      /\ count <= processedCount + length rows.
Proof.
  induction rest as [|newsItem rest IH]; intros pc w.
  { exists pc, w, [], [], []. rewrite !app_nil_r. repeat split; try done; lia. }
  simpl. destruct (Nat.ltb pc cap).
  2:{ exists pc, w, [], [], []. rewrite !app_nil_r.
      repeat split; try done; lia. }
  unfold bind at 1.
  destruct (processNews_effects env newsItem w)
    as (v & w1 & ta & -> & Hta & Hpa & Hfeeds & Hcases).
  assert (forall pc' w2 tb,
            trace w2 = trace w1 ++ tb -> parsed tb = [] ->
            rss_feeds w2 = rss_feeds w1 -> blogs w2 = blogs w1 ->
            blog_categories w2 = blog_categories w1 ->
            (is_null v = true -> pc' = pc) -> pc' <= S pc ->
            exists (count : nat) (w' : World) (t : list event)
                   (rows : list BlogRow) (links : list CategoryRow),
              walk env cap rest pc' w2 = (Ok count, w')
              /\ trace w' = trace w ++ t
              /\ parsed t = []
              /\ rss_feeds w' = rss_feeds w
              /\ blogs w' = blogs w ++ rows
              /\ blog_categories w' = blog_categories w ++ links
              /\ Forall (fun row => exists item,
                           In item (newsItem :: rest) /\ post_of item row) rows
              /\ Forall (fun link => exists item row,
                           In item (newsItem :: rest) /\ In row rows
                           /\ post_of item row
                           /\ link = categoryRow item (VNum (blog_id row)))
                   links
              /\ count <= pc + length rows) as Hnext.
  { intros pc' w2 tb Htb Hpb Hf2 Hb2 Hc2 Hnull Hpc'.
    destruct (IH pc' w2)
      as (count & w' & t & rows & links & Hrun & Ht & Hp & Hf & Hb & Hc
          & Hrows & Hlinks & Hcount).
    assert (Forall (fun row => exists item,
                      In item (newsItem :: rest) /\ post_of item row) rows)
      as Hrows'.
    { eapply Forall_impl; [exact Hrows|].
      intros row (item & Hin & Hpost). exists item. split; [by right|done]. }
    assert (trace w' = trace w ++ (ta ++ tb ++ t)) as Htr.
    { rewrite Ht, Htb, Hta. by rewrite <- !app_assoc. }
    assert (parsed (ta ++ tb ++ t) = []) as Hpar.
    { by rewrite !parsed_app, Hpa, Hpb, Hp. }
    assert (Forall (fun link => exists item row,
                      In item (newsItem :: rest) /\ In row rows
                      /\ post_of item row
                      /\ link = categoryRow item (VNum (blog_id row))) links)
      as Hlinks0.
    { eapply Forall_impl; [exact Hlinks|].
      intros link (item & row0 & Hin & Hrow & Hpost & Hlink).
      exists item, row0. split; [by right|done]. }
    destruct Hcases as [(-> & Hb1 & Hc1 & _)
                       |(s & Hs & Hb1 & _ & Hc1 & Hv)].
    - exists count, w', (ta ++ tb ++ t), rows, links.
      rewrite (Hnull eq_refl) in *.
      split; [done|]. split; [done|]. split; [done|].
      split; [congruence|]. split; [congruence|]. split; [congruence|].
      done.
    - set (row := blogRow newsItem (VStr s) (auto_increment w)) in *.
      assert (post_of newsItem row) as Hpost by (by exists s).
      assert (Forall (fun link => exists item row0,
                        In item (newsItem :: rest) /\ In row0 (row :: rows)
                        /\ post_of item row0
                        /\ link = categoryRow item (VNum (blog_id row0))) links)
        as Hlinks'.
      { eapply Forall_impl; [exact Hlinks0|].
        intros link (item & row0 & Hin & Hrow & Hpost0 & Hlink).
        exists item, row0. split; [done|]. split; [by right|done]. }
      destruct Hc1 as [Hc1|Hc1].
      + exists count, w', (ta ++ tb ++ t), (row :: rows), links.
        split; [done|]. split; [done|]. split; [done|].
        split; [congruence|].
        split. { rewrite Hb, Hb2, Hb1. by rewrite <- app_assoc. }
        split; [congruence|].
        split. { constructor; [|done]. exists newsItem. split; [by left|done]. }
        split; [done|]. simpl. lia.
      + exists count, w', (ta ++ tb ++ t), (row :: rows),
          (categoryRow newsItem (VNum (auto_increment w)) :: links).
        split; [done|]. split; [done|]. split; [done|].
        split; [congruence|].
        split. { rewrite Hb, Hb2, Hb1. by rewrite <- app_assoc. }
        split. { rewrite Hc, Hc2, Hc1. by rewrite <- app_assoc. }
        split. { constructor; [|done]. exists newsItem. split; [by left|done]. }
        split. { constructor; [|done]. exists newsItem, row.
                 split; [by left|]. split; [by left|done]. }
        simpl. lia. }
  destruct (is_null v) eqn:Hnull; cbn [negb].
  - apply (Hnext pc w1 []); try done; try lia. by rewrite app_nil_r.
  - unfold bind at 1. destruct (Nat.ltb (S pc) cap).
    + unfold delay. apply (Hnext (S pc) _ [EvDelay 12000]); try done; lia.
    + unfold ret at 1. apply (Hnext (S pc) w1 []); try done; try lia.
      by rewrite app_nil_r.
Qed.

(** X14.  The loop of a run reports at most 3 insertions, never more than
    there are candidates, and waits at most twice. *)
Theorem walk_bounds (env : Env) (newsLinks : list Candidate) (w : World) :
  exists (count : nat) (w' : World) (t : list event),
    walk env (itemsToProcess newsLinks) newsLinks 0 w = (Ok count, w')
    /\ trace w' = trace w ++ t
    /\ count <= 3
    /\ count <= length newsLinks
    /\ delays t <= 2
    /\ length (attempted t) <= length newsLinks.
Proof.
  destruct (walk_spec env (itemsToProcess newsLinks) newsLinks 0 w ltac:(lia))
    as (t & count & w' & k & Hrun & Ht & Hcount & Hle & Hk & Hat & _ & _
        & Hdelays & _).
  exists count, w', t. unfold itemsToProcess in *.
  split; [done|]. split; [done|]. split; [lia|]. split; [lia|].
  split; [lia|]. rewrite Hat, length_map, length_take. lia.
Qed.

(** ** Aggregation *)

Section AggregationFacts.

Variable env : Env.

(** X15.  Within one feed the items are pushed in order until one throws:
    the candidates of the items before it stay in [newsLinks], and that
    item and all the items after it are dropped. *)
Theorem pushItems_until_throw (k : nat) (feed : FeedRow)
    (parsedFeed : ParsedFeed) (good : list value) (pushed : list Candidate)
    (bad : value) (later : list value) (msg : string)
    (newsLinks : list Candidate) :
  Forall2 (fun item c => candidate_of env k feed parsedFeed item = Ok c)
    good pushed ->
  candidate_of env k feed parsedFeed bad = Throw msg ->
  pushItems env k feed parsedFeed (good ++ bad :: later) newsLinks
  = (Throw msg, newsLinks ++ pushed).
Proof.
  intros Hgood Hbad. revert newsLinks.
  induction Hgood as [|item c good pushed Hc _ IH]; intros newsLinks.
  - simpl. unfold candidate_of in Hbad. rewrite Hbad. by rewrite app_nil_r.
  - simpl. unfold candidate_of in Hc. rewrite Hc.
    rewrite IH. by rewrite <- app_assoc.
Qed.

(** Without a throwing item every item gives its candidate. *)
Lemma pushItems_all (k : nat) (feed : FeedRow) (parsedFeed : ParsedFeed)
    (good : list value) (pushed : list Candidate) (newsLinks : list Candidate) :
  Forall2 (fun item c => candidate_of env k feed parsedFeed item = Ok c)
    good pushed ->
  pushItems env k feed parsedFeed good newsLinks = (Ok tt, newsLinks ++ pushed).
Proof.
  intros Hgood. revert newsLinks.
  induction Hgood as [|item c good pushed Hc _ IH]; intros newsLinks.
  - simpl. by rewrite app_nil_r.
  - simpl. unfold candidate_of in Hc. rewrite Hc.
    rewrite IH. by rewrite <- app_assoc.
Qed.

(** Every candidate carries the category of the feed of its item. *)
Lemma candidate_of_category (k : nat) (feed : FeedRow)
    (parsedFeed : ParsedFeed) (item : value) (c : Candidate) :
  candidate_of env k feed parsedFeed item = Ok c ->
  categoryId c = category_id feed.
Proof.
  unfold candidate_of. intros Hc.
  destruct (extractMediaUrl item); [|done]. cbn [obind] in Hc.
  destruct (get item "title"); [|done]. cbn [obind] in Hc.
  destruct (get item "link"); [|done]. cbn [obind] in Hc.
  destruct (get item "pubDate"); [|done]. cbn [obind] in Hc.
  destruct (js_or _ _); [|done]. cbn [obind] in Hc.
  by injection Hc as <-.
Qed.

(** What one feed adds was built from its items. *)
Lemma pushItems_adds (k : nat) (feed : FeedRow) (parsedFeed : ParsedFeed)
    (rest : list value) :
  forall newsLinks,
    exists more,
      snd (pushItems env k feed parsedFeed rest newsLinks) = newsLinks ++ more
      /\ length more <= length rest
      /\ Forall (fun c => exists item,
                   In item rest
                   /\ candidate_of env k feed parsedFeed item = Ok c) more.
Proof.
  induction rest as [|item rest IH]; intros newsLinks.
  { exists []. by rewrite app_nil_r. }
  simpl. fold (candidate_of env k feed parsedFeed item).
  destruct (candidate_of env k feed parsedFeed item) as [c|msg] eqn:Hc.
  - destruct (IH (newsLinks ++ [c])) as (more & -> & Hlen & Hmore).
    exists (c :: more). split; [by rewrite <- app_assoc|].
    split; [simpl; lia|]. constructor.
    + exists item. split; [by left|done].
    + eapply Forall_impl; [exact Hmore|].
      intros c' (item' & Hin & Hc'). exists item'. split; [by right|done].
  - exists []. rewrite app_nil_r. split; [done|]. split; [simpl; lia|done].
Qed.

Lemma item_of_app (start : nat) (t t' : list event) (feed : FeedRow)
    (c : Candidate) :
  item_of env start t feed c -> item_of env start (t ++ t') feed c.
Proof.
  intros (k & item & Hstart & Hk & Hrest). exists k, item.
  split; [done|]. split; [|done]. by apply lookup_app_l_Some.
Qed.

Lemma item_of_earlier (start start' : nat) (t : list event) (feed : FeedRow)
    (c : Candidate) :
  start' <= start -> item_of env start t feed c -> item_of env start' t feed c.
Proof.
  intros Hle (k & item & Hstart & Hrest). exists k, item. split; [lia|done].
Qed.

Lemma aggregate_profile (rssFeeds : list FeedRow) :
  forall (newsLinks : list Candidate) (w : World),
    exists (aggregated : list Candidate) (w' : World) (t : list event)
           (more : list Candidate),
      aggregate env rssFeeds newsLinks w = (Ok aggregated, w')
      /\ trace w' = trace w ++ t
      /\ parsed t = map rss_url rssFeeds
      /\ same_tables w w'
      /\ aggregated = newsLinks ++ more
      /\ Forall (fun c => exists feed,
                   In feed rssFeeds
                   /\ item_of env (length (trace w)) (trace w') feed c) more.
Proof.
  induction rssFeeds as [|feed rest IH]; intros newsLinks w.
  { exists newsLinks, w, [], []. by rewrite !app_nil_r. }
  assert (forall w2 tb pushed,
            trace w2 = trace w ++ tb -> parsed tb = [rss_url feed] ->
            same_tables w w2 ->
            Forall (fun c => item_of env (length (trace w)) (trace w2) feed c)
              pushed ->
            exists (aggregated : list Candidate) (w' : World) (t : list event)
                   (more : list Candidate),
              aggregate env rest (newsLinks ++ pushed) w2 = (Ok aggregated, w')
              /\ trace w' = trace w ++ t
              /\ parsed t = map rss_url (feed :: rest)
              /\ same_tables w w'
              /\ aggregated = newsLinks ++ more
              /\ Forall (fun c => exists feed0,
                           In feed0 (feed :: rest)
                           /\ item_of env (length (trace w)) (trace w') feed0 c)
                   more) as Hnext.
  { intros w2 tb pushed Htb Hpb Hs2 Hpushed.
    destruct (IH (newsLinks ++ pushed) w2)
      as (aggregated & w' & t & more & Hrun & Ht & Hp & Hs & -> & Hmore).
    exists (newsLinks ++ pushed ++ more), w', (tb ++ t), (pushed ++ more).
    split; [by rewrite Hrun, <- app_assoc|].
    split. { rewrite Ht, Htb. by rewrite <- app_assoc. }
    split. { rewrite parsed_app, Hpb, Hp. done. }
    split. { by eapply same_tables_trans. }
    split; [done|]. apply Forall_app. split.
    - eapply Forall_impl; [exact Hpushed|].
      intros c Hc. exists feed. split; [by left|].
      rewrite Ht. by apply item_of_app.
    - eapply Forall_impl; [exact Hmore|].
      intros c (feed0 & Hin & Hc). exists feed0. split; [by right|].
      eapply item_of_earlier; [|exact Hc]. rewrite Htb, length_app. lia. }
  simpl. unfold parseURL, external.
  destruct (fault env (length (trace w))) as [msg|] eqn:Hfault.
  - unfold bind, say.
    destruct (Hnext (log (EvLog (LogFeedError (rss_url feed) msg))
                       (log (EvParseURL (rss_url feed)) w))
                [EvParseURL (rss_url feed);
                 EvLog (LogFeedError (rss_url feed) msg)] [])
      as (aggregated & w' & t & more & Hrun & Hrest); try done.
    { simpl. by rewrite <- app_assoc. }
    rewrite app_nil_r in Hrun. rewrite Hrun. by eexists _, _, _, _.
  - rewrite (length_log (EvParseURL (rss_url feed)) w).
    destruct (pushItems_adds (S (length (trace w)))
                feed (parseURL_result env (length (trace w)) (rss_url feed))
                (items (parseURL_result env (length (trace w)) (rss_url feed)))
                newsLinks) as (pushed & Hpushed & _ & Hitems).
    assert (forall tail,
              Forall (fun c => item_of env (length (trace w))
                                 (trace w ++ EvParseURL (rss_url feed) :: tail)
                                 feed c) pushed) as Hfrom.
    { intros tail. eapply Forall_impl; [exact Hitems|].
      intros c (item & Hin & Hc). exists (length (trace w)), item.
      split; [done|]. split; [by apply list_lookup_middle|done]. }
    destruct (pushItems env _ feed _ _ newsLinks) as [[[]|msg] pushed'];
      simpl in Hpushed; subst pushed'.
    + destruct (Hnext (log (EvParseURL (rss_url feed)) w)
                  [EvParseURL (rss_url feed)] pushed)
        as (aggregated & w' & t & more & Hrun & Hrest); try done.
      { exact (Hfrom []). }
      rewrite Hrun. by eexists _, _, _, _.
    + unfold bind, say.
      destruct (Hnext (log (EvLog (LogFeedError (rss_url feed) msg))
                         (log (EvParseURL (rss_url feed)) w))
                  [EvParseURL (rss_url feed);
                   EvLog (LogFeedError (rss_url feed) msg)] pushed)
        as (aggregated & w' & t & more & Hrun & Hrest); try done.
      { simpl. by rewrite <- app_assoc. }
      { simpl. rewrite <- app_assoc. exact (Hfrom [_]). }
      rewrite Hrun. by eexists _, _, _, _.
Qed.

(** X16.  Aggregation fetches every feed it is given exactly once and in
    order, whatever fails for a feed; it never throws and writes nothing;
    and every candidate it returns carries the category id of one of the
    feeds. *)
Theorem aggregate_isolates_failures (rssFeeds : list FeedRow) (w : World) :
  exists (newsLinks : list Candidate) (w' : World) (t : list event),
    aggregate env rssFeeds [] w = (Ok newsLinks, w')
    /\ trace w' = trace w ++ t
    /\ parsed t = map rss_url rssFeeds
    /\ same_tables w w'
    /\ Forall (fun c => exists feed,
                 In feed rssFeeds /\ categoryId c = category_id feed) newsLinks.
Proof.
  destruct (aggregate_profile rssFeeds [] w)
    as (newsLinks & w' & t & more & Hrun & Ht & Hp & Hs & -> & Hmore).
  exists more, w', t. rewrite Hrun.
  split; [done|]. split; [done|]. split; [done|]. split; [done|].
  eapply Forall_impl; [exact Hmore|].
  intros c (feed & Hin & k & item & _ & _ & _ & _ & Hc).
  exists feed. split; [done|]. by eapply candidate_of_category.
Qed.

End AggregationFacts.

(** ** The run as a whole *)

Section RunMore.

Variable env : Env.

Lemma run_effects (w : World) :
  exists (r : outcome nat) (w' : World) (t : list event)
         (rows : list BlogRow) (links : list CategoryRow),
    fetchAndProcessNews env w = (r, w')
    /\ trace w' = trace w ++ t
    /\ rss_feeds w' = rss_feeds w
    /\ blogs w' = blogs w ++ rows
    /\ blog_categories w' = blog_categories w ++ links
    /\ Forall (fun row => exists newsItem feed,
                 In feed (active w)
                 /\ categoryId newsItem = category_id feed
                 /\ item_of env (length (trace w)) (trace w') feed newsItem
                 /\ post_of newsItem row) rows
    /\ Forall (fun link => exists row newsItem feed,
                 In row rows /\ bc_blog_id link = VNum (blog_id row)
                 /\ In feed (active w)
                 /\ item_of env (length (trace w)) (trace w') feed newsItem
                 /\ post_of newsItem row
                 /\ link = categoryRow newsItem (VNum (blog_id row))) links
    /\ match r with
       | Ok count => count <= 3 /\ count <= length rows
       | Throw _ => True
       end
    /\ parsed t
       = match fault env (length (trace w)), fault env (S (length (trace w))) with
         | None, None => map rss_url (active w)
         | _, _ => []
         end
    /\ match fault env (length (trace w)) with
       | Some msg => r = Throw msg
       | None =>
           match fault env (length (trace w') - 1),
                 fault env (S (length (trace w))) with
           | Some msg, _ => r = Throw msg
           | None, Some msg => r = Throw msg
           | None, None => exists count, r = Ok count
           end
       end.
Proof.
  unfold fetchAndProcessNews. unfold bind at 1.
  unfold createDbConnection, external.
  destruct (fault env (length (trace w))) as [msg|].
  { exists (Throw msg), (log EvCreatePool w), [EvCreatePool], [], [].
    rewrite !app_nil_r. repeat split; try done. }
  unfold try_finally. unfold bind at 1. unfold fetchRSSFeeds, external.
  rewrite (length_log EvCreatePool w).
  set (w2 := log EvSelectFeeds (log EvCreatePool w)).
  assert (trace w2 = trace w ++ [EvCreatePool; EvSelectFeeds]) as Ht2.
  { simpl. by rewrite <- app_assoc. }
  destruct (fault env (S (length (trace w)))) as [msg|].
  - unfold poolEnd, external.
    assert (length (trace (log EvPoolEnd w2)) - 1 = length (trace w2)) as Hlen.
    { rewrite length_log. lia. }
    destruct (fault env (length (trace w2))) as [msg'|] eqn:Hend.
    + exists (Throw msg'), (log EvPoolEnd w2),
        [EvCreatePool; EvSelectFeeds; EvPoolEnd], [], [].
      rewrite Hlen, Hend, !app_nil_r. repeat split; try done.
      simpl. by rewrite <- !app_assoc.
    + exists (Throw msg), (log EvPoolEnd w2),
        [EvCreatePool; EvSelectFeeds; EvPoolEnd], [], [].
      rewrite Hlen, Hend, !app_nil_r. repeat split; try done.
      simpl. by rewrite <- !app_assoc.
  - change (filter (fun r => status r = 1%Z) (rss_feeds w2)) with (active w).
    destruct (aggregate_profile env (active w) [] w2)
      as (newsLinks & w3 & ta & more & Hagg & Hta & Hpa & Hsame & Hmore_eq
          & Hmore).
    simpl in Hmore_eq. subst more.
    destruct Hsame as (Hf3 & Hb3 & Hc3 & _).
    set (w4 := log (EvLog (LogProcessingUpTo (itemsToProcess newsLinks)))
                 (log (EvLog (LogFound (length newsLinks))) w3)).
    destruct (walk_effects env (itemsToProcess newsLinks) newsLinks 0 w4)
      as (count & w5 & tw & rows & links & Hwalk & Htw & Hpw & Hf5 & Hb5 & Hc5
          & Hrows & Hlinks & Hcount).
    destruct (walk_spec env (itemsToProcess newsLinks) newsLinks 0 w4
                ltac:(lia))
      as (tw' & count' & w5' & k & Hwalk' & _ & _ & Hle & _).
    rewrite Hwalk in Hwalk'. injection Hwalk' as <- <-.
    unfold bind at 1. rewrite Hagg. unfold bind, say, ret. fold w4.
    rewrite Hwalk.
    set (w6 := log (EvLog (LogCompleted count)) w5).
    assert (trace w6
            = trace w ++ [EvCreatePool; EvSelectFeeds] ++ ta
              ++ [EvLog (LogFound (length newsLinks));
                  EvLog (LogProcessingUpTo (itemsToProcess newsLinks))]
              ++ tw ++ [EvLog (LogCompleted count)]) as Ht6.
    { subst w6 w4. simpl. rewrite Htw. simpl. rewrite Hta, Ht2.
      rewrite <- !app_assoc. simpl. by rewrite <- ?app_assoc. }
    assert (parsed ([EvCreatePool; EvSelectFeeds] ++ ta
              ++ [EvLog (LogFound (length newsLinks));
                  EvLog (LogProcessingUpTo (itemsToProcess newsLinks))]
              ++ tw ++ [EvLog (LogCompleted count); EvPoolEnd])
            = map rss_url (active w)) as Hparsed.
    { rewrite !parsed_app, Hpa, Hpw. simpl. by rewrite app_nil_r. }
    assert (forall newsItem,
              In newsItem newsLinks ->
              exists feed,
                In feed (active w)
                /\ categoryId newsItem = category_id feed
                /\ item_of env (length (trace w)) (trace (log EvPoolEnd w6)) feed
                       newsItem)
      as Hfrom.
    { intros newsItem Hin. rewrite Forall_forall in Hmore.
      destruct (Hmore newsItem) as (feed & Hfeed & Hitem).
      { by apply list_elem_of_In. }
      exists feed. split; [done|]. split.
      - destruct Hitem as (k0 & item & _ & _ & _ & _ & Hc).
        by eapply candidate_of_category.
      - change (trace (log EvPoolEnd w6)) with (trace w6 ++ [EvPoolEnd]).
        change (trace w6) with (trace w5 ++ [EvLog (LogCompleted count)]).
        rewrite Htw.
        change (trace w4)
          with ((trace w3 ++ [EvLog (LogFound (length newsLinks))])
                ++ [EvLog (LogProcessingUpTo (itemsToProcess newsLinks))]).
        do 5 apply item_of_app.
        eapply item_of_earlier; [|exact Hitem]. rewrite Ht2, length_app. lia. }
    assert (Forall (fun row => exists newsItem feed,
                      In feed (active w)
                      /\ categoryId newsItem = category_id feed
                      /\ item_of env (length (trace w)) (trace (log EvPoolEnd w6)) feed
                       newsItem
                      /\ post_of newsItem row) rows) as Hrows'.
    { eapply Forall_impl; [exact Hrows|].
      intros row (newsItem & Hin & Hpost).
      destruct (Hfrom newsItem Hin) as (feed & Hfeed & Hcat & Hitem).
      by exists newsItem, feed. }
    assert (Forall (fun link => exists row newsItem feed,
                      In row rows /\ bc_blog_id link = VNum (blog_id row)
                      /\ In feed (active w)
                      /\ item_of env (length (trace w)) (trace (log EvPoolEnd w6)) feed
                       newsItem
                      /\ post_of newsItem row
                      /\ link = categoryRow newsItem (VNum (blog_id row)))
              links) as Hlinks'.
    { eapply Forall_impl; [exact Hlinks|].
      intros link (newsItem & row & Hin & Hrow & Hpost & ->).
      destruct (Hfrom newsItem Hin) as (feed & Hfeed & Hcat & Hitem).
      by exists row, newsItem, feed. }
    assert (count <= 3 /\ count <= length rows) as Hbound.
    { unfold itemsToProcess in Hle. lia. }
    assert (rss_feeds w6 = rss_feeds w /\ blogs w6 = blogs w ++ rows
            /\ blog_categories w6 = blog_categories w ++ links)
      as (Hf6 & Hb6 & Hc6).
    { change (rss_feeds w6) with (rss_feeds w5).
      change (blogs w6) with (blogs w5).
      change (blog_categories w6) with (blog_categories w5).
      rewrite Hf5, Hb5, Hc5.
      change (rss_feeds w4) with (rss_feeds w3).
      change (blogs w4) with (blogs w3).
      change (blog_categories w4) with (blog_categories w3).
      by rewrite Hf3, Hb3, Hc3. }
    assert (trace (log EvPoolEnd w6)
            = trace w ++ [EvCreatePool; EvSelectFeeds] ++ ta
              ++ [EvLog (LogFound (length newsLinks));
                  EvLog (LogProcessingUpTo (itemsToProcess newsLinks))]
              ++ tw ++ [EvLog (LogCompleted count); EvPoolEnd]) as Ht7.
    { change (trace (log EvPoolEnd w6)) with (trace w6 ++ [EvPoolEnd]).
      rewrite Ht6. rewrite <- !app_assoc. simpl. by rewrite <- ?app_assoc. }
    assert (length (trace (log EvPoolEnd w6)) - 1 = length (trace w6)) as Hlen.
    { rewrite length_log. lia. }
    unfold poolEnd, external.
    destruct (fault env (length (trace w6))) as [msg'|] eqn:Hend.
    + eexists (Throw msg'), (log EvPoolEnd w6), _, rows, links.
      rewrite Hlen, Hend.
      split; [done|]. split; [exact Ht7|].
      split; [exact Hf6|]. split; [exact Hb6|].
      split; [exact Hc6|]. split; [done|]. split; [done|].
      split; [done|]. split; [exact Hparsed|done].
    + eexists (Ok count), (log EvPoolEnd w6), _, rows, links.
      rewrite Hlen, Hend.
      split; [done|]. split; [exact Ht7|].
      split; [exact Hf6|]. split; [exact Hb6|].
      split; [exact Hc6|]. split; [done|]. split; [done|].
      split; [done|]. split; [exact Hparsed|by exists count].
Qed.

(** X17.  A run only adds: [rss_feeds] is left as it was, [blogs] and
    [blog_categories] keep their rows and grow at the end.  Every row
    added to [blogs] is the post of a candidate that this run built from
    an item of an active feed it fetched (so its title, link, image,
    source and date are those of that item and feed), with a trimmed
    description of at least 50 words; every category link added joins
    such a post to the category of the feed its item came from; and the
    count returned is at most 3 and at most the number of rows added. *)
Theorem fetchAndProcessNews_only_adds_posts (w : World) :
  exists (r : outcome nat) (w' : World)
         (rows : list BlogRow) (links : list CategoryRow),
    fetchAndProcessNews env w = (r, w')
    /\ rss_feeds w' = rss_feeds w
    /\ blogs w' = blogs w ++ rows
    /\ blog_categories w' = blog_categories w ++ links
    /\ Forall (fun row => exists newsItem feed,
                 In feed (active w)
                 /\ categoryId newsItem = category_id feed
                 /\ item_of env (length (trace w)) (trace w') feed newsItem
                 /\ post_of newsItem row) rows
    /\ Forall (fun link => exists row newsItem feed,
                 In row rows /\ bc_blog_id link = VNum (blog_id row)
                 /\ In feed (active w)
                 /\ item_of env (length (trace w)) (trace w') feed newsItem
                 /\ post_of newsItem row
                 /\ link = categoryRow newsItem (VNum (blog_id row))) links
    /\ match r with
       | Ok count => count <= 3 /\ count <= length rows
       | Throw _ => True
       end.
Proof.
  destruct (run_effects w)
    as (r & w' & t & rows & links & Hrun & _ & Hf & Hb & Hc & Hrows & Hlinks
        & Hcount & _).
  by exists r, w', rows, links.
Qed.

(** X18.  When the pool opens and the feed query answers, the run fetches
    exactly the feeds of status 1, each once and in table order, whatever
    fails for a feed or a candidate; no other feed is fetched. *)
Theorem fetchAndProcessNews_fetches_active_feeds (w : World) :
  fault env (length (trace w)) = None ->
  fault env (S (length (trace w))) = None ->
  exists t,
    trace (snd (fetchAndProcessNews env w)) = trace w ++ t
    /\ parsed t = map rss_url (active w).
Proof.
  intros Hpool Hfeeds.
  destruct (run_effects w) as (r & w' & t & rows & links & Hrun & Ht & _ & _
                               & _ & _ & _ & _ & Hparsed & _).
  rewrite Hpool, Hfeeds in Hparsed. exists t. by rewrite Hrun.
Qed.

(** ** HTTP handlers *)

Lemma strict_eq_env_var (key : value) (secret : option string) :
  strict_eq key (env_var secret) = true <-> key = env_var secret.
Proof.
  destruct secret as [s|]; destruct key; simpl; split; try done.
  - intros ->%String.eqb_eq. done.
  - intros [= ->]. apply String.eqb_refl.
Qed.

(** X19.  [GET /api/process-news] with a key that is not the configured
    secret answers 401 [{error: 'Unauthorized'}] and does nothing else: no
    run is started, nothing is announced and the tables and the trace are
    as they were. *)
Theorem processNewsEndpoint_rejects_wrong_key (secret : option string)
    (key : value) (w : World) :
  key <> env_var secret ->
  processNewsEndpoint env secret key w
  = ({| announced := false;
        response := {| statusCode := 401;
                       body := VObj {[ "error" := VStr "Unauthorized" ]} |};
        reported := None |}, w).
Proof.
  intros Hkey. unfold processNewsEndpoint.
  destruct (strict_eq key (env_var secret)) eqn:Heq; [|done].
  by apply strict_eq_env_var in Heq.
Qed.

(** X20.  [GET /api/process-news] with the configured secret as key (a
    request without key when no secret is configured included) performs
    one run and nothing more.  It answers 500 with the message of the
    error only when opening the pool, the feed query or closing the pool
    rejects; in every other case, whatever fails for a feed or a
    candidate, it answers 200 with a count of at most 3 in the message. *)
Theorem processNewsEndpoint_authorized (secret : option string) (w : World) :
  let '(served, w') := processNewsEndpoint env secret (env_var secret) w in
  let failure msg :=
    response served
    = {| statusCode := 500;
         body := VObj {[ "success" := VBool false; "error" := VStr msg ]} |}
    /\ reported served = Some msg in
  announced served = true
  /\ w' = snd (fetchAndProcessNews env w)
  /\ match fault env (length (trace w)) with
     | Some msg => failure msg
     | None =>
         match fault env (length (trace w') - 1),
               fault env (S (length (trace w))) with
         | Some msg, _ => failure msg
         | None, Some msg => failure msg
         | None, None =>
             exists count,
               count <= 3
               /\ response served
                  = {| statusCode := 200;
                       body := VObj {[ "success" := VBool true;
                                       "message" :=
                                         VStr ("Successfully processed "
                                               +:+ pretty count
                                               +:+ " news items.") ]} |}
               /\ reported served = None
         end
     end.
Proof.
  unfold processNewsEndpoint.
  assert (strict_eq (env_var secret) (env_var secret) = true) as ->.
  { by apply strict_eq_env_var. }
  cbn [negb].
  destruct (run_effects w) as (r & w' & t & rows & links & -> & _ & _ & _ & _
                               & _ & _ & Hcount & _ & Hcases).
  destruct r as [count|msg]; cbn [announced response reported snd].
  - split; [done|]. split; [done|].
    destruct (fault env (length (trace w))); [done|].
    destruct (fault env (length (trace w') - 1)); [done|].
    destruct (fault env (S (length (trace w)))); [done|].
    exists count. by destruct Hcount.
  - split; [done|]. split; [done|].
    destruct (fault env (length (trace w))); [by injection Hcases as <-|].
    destruct (fault env (length (trace w') - 1)); [by injection Hcases as <-|].
    destruct (fault env (S (length (trace w)))); [by injection Hcases as <-|].
    by destruct Hcases.
Qed.

(** X21.  [GET /test-news-processing] asks for no key: every request
    performs one run.  It answers 500 with [Error: ] and the message only
    when opening the pool, the feed query or closing the pool rejects, and
    200 with a count of at most 3 in the text otherwise. *)
Theorem testEndpoint_runs_unguarded (w : World) :
  let '(served, w') := testEndpoint env w in
  let failure msg :=
    response served
    = {| statusCode := 500; body := VStr ("Error: " +:+ msg) |} in
  announced served = true
  /\ w' = snd (fetchAndProcessNews env w)
  /\ match fault env (length (trace w)) with
     | Some msg => failure msg
     | None =>
         match fault env (length (trace w') - 1),
               fault env (S (length (trace w))) with
         | Some msg, _ => failure msg
         | None, Some msg => failure msg
         | None, None =>
             exists count,
               count <= 3
               /\ response served
                  = {| statusCode := 200;
                       body := VStr ("News processing completed. Processed "
                                     +:+ pretty count
                                     +:+ " items. Check console for output.") |}
         end
     end.
Proof.
  unfold testEndpoint.
  destruct (run_effects w) as (r & w' & t & rows & links & -> & _ & _ & _ & _
                               & _ & _ & Hcount & _ & Hcases).
  destruct r as [count|msg]; cbn [announced response reported snd].
  - split; [done|]. split; [done|].
    destruct (fault env (length (trace w))); [done|].
    destruct (fault env (length (trace w') - 1)); [done|].
    destruct (fault env (S (length (trace w)))); [done|].
    exists count. by destruct Hcount.
  - split; [done|]. split; [done|].
    destruct (fault env (length (trace w))); [by injection Hcases as <-|].
    destruct (fault env (length (trace w') - 1)); [by injection Hcases as <-|].
    destruct (fault env (S (length (trace w)))); [by injection Hcases as <-|].
    by destruct Hcases.
Qed.

End RunMore.

Lemma pushItems_until_throw_witness :
  pushItems sixty_words 0 news_feed parsed_news_feed
    ([feed_item "https://e.org/a"]
     ++ item_null_entry :: [feed_item "https://e.org/b"]) []
  = (Throw "TypeError: Cannot read properties of null",
     [] ++ [candidate "https://e.org/a"]).
Proof.
  apply (pushItems_until_throw sixty_words 0 news_feed parsed_news_feed
           [feed_item "https://e.org/a"] [candidate "https://e.org/a"]
           item_null_entry [feed_item "https://e.org/b"]
           "TypeError: Cannot read properties of null" []).
  - constructor; [vm_compute; reflexivity|constructor].
  - vm_compute. reflexivity.
Defined.

Lemma fetchAndProcessNews_fetches_active_feeds_witness :
  exists t,
    trace (snd (fetchAndProcessNews two_items one_of_three_active))
    = trace one_of_three_active ++ t
    /\ parsed t = map rss_url (active one_of_three_active).
Proof.
  apply (fetchAndProcessNews_fetches_active_feeds two_items
           one_of_three_active); reflexivity.
Defined.

Lemma processNewsEndpoint_rejects_wrong_key_witness :
  processNewsEndpoint two_items (Some "s3cret") VUndefined (one_feed [])
  = ({| announced := false;
        response := {| statusCode := 401;
                       body := VObj {[ "error" := VStr "Unauthorized" ]} |};
        reported := None |}, one_feed []).
Proof.
  apply (processNewsEndpoint_rejects_wrong_key two_items (Some "s3cret")
           VUndefined (one_feed [])).
  simpl. discriminate.
Defined.

(** A request without key is served when no secret is configured. *)
Example processNewsEndpoint_unset_secret :
  statusCode (response (fst (processNewsEndpoint two_items None VUndefined
                               (one_feed [])))) = 200%Z
  /\ length (blogs (snd (processNewsEndpoint two_items None VUndefined
                           (one_feed [])))) = 2.
Proof. vm_compute. done. Qed.
